(** * df-plugin-dev-server: the bundler front end and its development proxy

    A shallow embedding of [src/server.js]: the esbuild resolver plugins
    ([httpExternalResolver], [preactResolver]), the configuration builders
    ([getDefaultConfig], [getExtraConfig]), the one-shot [bundle], the
    long-running [start] with its request listener, and the bootstrap
    module text of [templateForPathname].

    Pure library functions the module imports (the URL constructor, [path],
    [require.resolve], [chalk]) are the methods of the class [NodeLib];
    effectful collaborators ([get-port], [fs], [fast-glob], [esbuild],
    [http]) are the operations of a small program type [Prog], answered by
    a [World]. *)

From Stdlib Require Import String Ascii List ZArith Bool Lia DecimalString.
Import ListNotations.
Local Open Scope string_scope.
Local Open Scope Z_scope.

Set Implicit Arguments.

(** ** Strings *)

Module Str.

(** The double quote character, [U+0022]. *)
Definition dq : string :=
  String (Ascii false true false false false true false false) EmptyString.

(** Line feed, [U+000A]. *)
Definition nl : string :=
  String (Ascii false true false true false false false false) EmptyString.

(** [s.startsWith(p)]. *)
Fixpoint startsWith (p s : string) : bool :=
  match p, s with
  | EmptyString, _ => true
  | String a p', String b s' => if Ascii.eqb a b then startsWith p' s' else false
  | String _ _, EmptyString => false
  end.

(** [s.includes(needle)]. *)
Fixpoint includes (needle s : string) : bool :=
  startsWith needle s ||
  match s with
  | EmptyString => false
  | String _ s' => includes needle s'
  end.

(** The declarative reading of [includes]: [needle] occurs somewhere in [s]. *)
Definition Substring (needle s : string) : Prop :=
  exists pre post, s = pre ++ needle ++ post.

(** [lines.join(sep)]. *)
Fixpoint join (sep : string) (l : list string) : string :=
  match l with
  | [] => EmptyString
  | [x] => x
  | x :: rest => x ++ sep ++ join sep rest
  end.

(** Every line followed by a line feed. *)
Definition unlines (l : list string) : string :=
  String.concat EmptyString (List.map (fun x => x ++ nl) l).

(** [arr.includes(x)] on an array of strings. *)
Definition mem (x : string) (l : list string) : bool :=
  existsb (String.eqb x) l.

End Str.

(** ** JavaScript objects used as records of string keys

    Insertion ordered, one entry per key.  [set] is the assignment
    [o[k] = v] (and what a later key does in an object literal or spread):
    an existing key keeps its place and takes the new value, a new key goes
    last. *)

Module Obj.

Definition t (V : Type) : Type := list (string * V).

Fixpoint get {V} (k : string) (o : t V) : option V :=
  match o with
  | [] => None
  | (k', v) :: rest => if String.eqb k k' then Some v else get k rest
  end.

Definition has {V} (k : string) (o : t V) : bool :=
  match get k o with Some _ => true | None => false end.

Fixpoint set {V} (k : string) (v : V) (o : t V) : t V :=
  match o with
  | [] => [(k, v)]
  | (k', v') :: rest =>
      if String.eqb k k' then (k', v) :: rest else (k', v') :: set k v rest
  end.

Definition keys {V} (o : t V) : list string := List.map fst o.

End Obj.

(** ** Regular expressions of the resolver filters

    The four filters of the source are made of literal characters, one
    optional character ([s?]) and the anchors [^] and [$].  [test] is an
    unanchored search, as [RegExp.prototype.test] and esbuild's filter
    matching are. *)

Module Regex.

Inductive t : Type :=
| Eps                   (* the empty expression *)
| Bol                   (* ^ *)
| Eol                   (* $ *)
| Chr (c : ascii)       (* a literal character *)
| Opt (r : t)           (* r? *)
| Seq (r1 r2 : t).      (* r1 r2 *)

(** The literal [s] as a regular expression. *)
Fixpoint lit (s : string) : t :=
  match s with
  | EmptyString => Eps
  | String c s' => Seq (Chr c) (lit s')
  end.

(** A position in the subject: whether it is the start of the subject,
    and what is left to read. *)
Definition pos : Type := (bool * string)%type.

(** All positions at which a match of [r] started at [p] can end. *)
Fixpoint ends (r : t) (p : pos) : list pos :=
  match r with
  | Eps => [p]
  | Bol => if fst p then [p] else []
  | Eol => match snd p with EmptyString => [p] | _ => [] end
  | Chr c =>
      match snd p with
      | String c' rest => if Ascii.eqb c c' then [(false, rest)] else []
      | EmptyString => []
      end
  | Opt r' => ends r' p ++ [p]
  | Seq r1 r2 => flat_map (ends r2) (ends r1 p)
  end.

Definition matches_at (r : t) (p : pos) : bool :=
  match ends r p with [] => false | _ :: _ => true end.

(** A match starting at the current position or at any later one. *)
Fixpoint search (r : t) (at_start : bool) (s : string) : bool :=
  matches_at r (at_start, s) ||
  match s with
  | EmptyString => false
  | String _ s' => search r false s'
  end.

Definition test (r : t) (s : string) : bool := search r true s.

End Regex.

(** ** Errors and results *)

(** A thrown JavaScript value, by its message. *)
Definition Error : Type := string.

(** The result of a call that can throw (or of a promise that can reject). *)
Inductive Result (A : Type) : Type :=
| Ok (a : A)
| Err (e : Error).
Arguments Ok {A} a.
Arguments Err {A} e.

(** ** The imported pure library functions *)

(** [new URL(input, base)]: the two properties the listener destructures.
    [searchParams] is the list of name/value pairs of the query. *)
Record URL : Type := {
  pathname : string;
  searchParams : list (string * string)
}.

(** [searchParams.has(name)]. *)
Definition searchParams_has (name : string) (u : URL) : bool :=
  existsb (fun kv => String.eqb (fst kv) name) (searchParams u).

Class NodeLib : Type := {
  (** [new URL(input, base)]; [Err] is the [TypeError] of an invalid URL. *)
  URL_new : string -> string -> Result URL;
  (** [path.join(a, b)]. *)
  path_join : string -> string -> string;
  (** [path.extname(p)]. *)
  path_extname : string -> string;
  (** [process.cwd()]. *)
  process_cwd : string;
  (** [require.resolve(request)]; [Err] when the module is not found. *)
  require_resolve : string -> Result string;
  (** [chalk.underline] and [chalk.bold]. *)
  underline : string -> string;
  bold : string -> string
}.

(** [path.isAbsolute(p)], POSIX or Windows form: a leading separator, or a
    drive letter followed by [:] and a separator. *)
Definition path_isAbsolute (p : string) : bool :=
  let sep c := (Ascii.eqb c "/" || (N_of_ascii c =? 92)%N)%bool in
  let letter c :=
    let n := N_of_ascii c in
    ((65 <=? n) && (n <=? 90) || (97 <=? n) && (n <=? 122))%N%bool in
  match p with
  | String c0 (String c1 (String c2 _)) =>
      (sep c0 || letter c0 && Ascii.eqb c1 ":" && sep c2)%bool
  | String c0 _ => sep c0
  | EmptyString => false
  end.

(** The decimal text of a number inside a template literal. *)
Definition Z_to_string (z : Z) : string :=
  DecimalString.NilZero.string_of_int (Z.to_int z).

(** ** The esbuild plugin interface *)

(** What an [onResolve] callback returns: [{ path, external }]; a missing
    [external] is [false]. *)
Record OnResolveResult : Type := {
  res_path : string;
  res_external : bool
}.

(** One [build.onResolve({ filter }, callback)] registration.  The callback
    receives [args.path]. *)
Record OnResolve : Type := {
  filter : Regex.t;
  callback : string -> Result OnResolveResult
}.

(** A plugin [{ name, setup(build) }]: [setup] is given by the
    registrations it makes, in order. *)
Record Plugin : Type := {
  name : string;
  setup : list OnResolve
}.

(** The build options object handed to esbuild.  A key that is absent from
    the object is [None]. *)
Record BuildOptions : Type := {
  entryPoints : option (list string);
  outdir : option string;
  sourcemap : option bool;
  bundle_opt : option bool;
  format : option string;
  target : option (list string);
  plugins : option (list Plugin);
  jsxFactory : option string;
  jsxFragment : option string
}.

Definition emptyOptions : BuildOptions :=
  {| entryPoints := None; outdir := None; sourcemap := None;
     bundle_opt := None; format := None; target := None; plugins := None;
     jsxFactory := None; jsxFragment := None |}.

(** Object spread [{ ...a, ...b }]: a key of [b] overrides the same key
    of [a]. *)
Definition spread (a b : BuildOptions) : BuildOptions :=
  let pick {T} (x y : option T) := match y with Some _ => y | None => x end in
  {| entryPoints := pick (entryPoints a) (entryPoints b);
     outdir := pick (outdir a) (outdir b);
     sourcemap := pick (sourcemap a) (sourcemap b);
     bundle_opt := pick (bundle_opt a) (bundle_opt b);
     format := pick (format a) (format b);
     target := pick (target a) (target b);
     plugins := pick (plugins a) (plugins b);
     jsxFactory := pick (jsxFactory a) (jsxFactory b);
     jsxFragment := pick (jsxFragment a) (jsxFragment b) |}.

(** How the bundler treats a module specifier once the resolver plugins
    have run. *)
Inductive Classification : Type :=
| Unchanged                       (* no callback answered *)
| Externalize (path : string)     (* left for the runtime loader *)
| Redirect (target : string)      (* another file is substituted *)
| ResolveFailed (e : Error).      (* a callback threw *)

(** esbuild's dispatch over the registered [onResolve] callbacks: in
    registration order, the first callback whose filter matches decides. *)
Fixpoint dispatch (hooks : list OnResolve) (specifier : string) : Classification :=
  match hooks with
  | [] => Unchanged
  | h :: rest =>
      if Regex.test (filter h) specifier then
        match callback h specifier with
        | Ok r => if res_external r then Externalize (res_path r)
                  else Redirect (res_path r)
        | Err e => ResolveFailed e
        end
      else dispatch rest specifier
  end.

(** All registrations of a plugin list, plugin after plugin. *)
Definition hooks_of (ps : list Plugin) : list OnResolve :=
  flat_map setup ps.

(** ** HTTP messages *)

(** A header value: a string, or an array of strings ([set-cookie]). *)
Inductive HeaderValue : Type :=
| HStr (s : string)
| HArr (l : list string).

Definition Headers : Type := Obj.t HeaderValue.

(** A value inside a template literal: [undefined] prints as
    [undefined], an array as its elements joined by commas. *)
Definition template_of (v : option HeaderValue) : string :=
  match v with
  | None => "undefined"
  | Some (HStr s) => s
  | Some (HArr l) => Str.join "," l
  end.

(** The inbound request [req], with its body read to the end. *)
Record IncomingRequest : Type := {
  req_method : string;
  req_url : string;
  req_headers : Headers;
  req_body : string
}.

(** The [options] of [http.request]. *)
Record RequestOptions : Type := {
  opt_hostname : string;
  opt_port : Z;
  opt_path : string;
  opt_method : string;
  opt_headers : Headers
}.

(** The internal server's answer [proxyRes], with its body read to the
    end. *)
Record IncomingMessage : Type := {
  statusCode : Z;
  headers : Headers;
  msg_body : string
}.

(** [esbuild.serve]'s options and its answer. *)
Record ServeOptions : Type := { serve_port : Z }.
Record ServeResult : Type := { host : string; port : Z }.

(** ** Programs over the effectful collaborators *)

(** A call to a collaborator, indexed by the type of its answer. *)
Inductive Op : Type -> Type :=
| GetPort (preferred : Z) : Op Z
    (* getPort({ port: preferred }) *)
| FsReaddir (path : string) : Op (list string)
    (* fs.readdir(path) *)
| FastGlob (patterns : list string) : Op (list string)
    (* fastGlob(patterns) *)
| FastGlobUndefined : Op (list string)
    (* fastGlob(undefined): the call [start] makes when it is given
       neither a directory nor patterns *)
| EsbuildBuild (options : BuildOptions) : Op unit
    (* esbuild.build(options) *)
| EsbuildServe (serveOptions : ServeOptions) (options : BuildOptions) : Op ServeResult
    (* esbuild.serve(serveOptions, options) *)
| HttpRequest (options : RequestOptions) (body : string) : Op IncomingMessage
    (* http.request(options, callback) with [body] piped into it.  [Ok]
       is the [proxyRes] the callback receives, with a body that arrives
       to its end; [Err] is an error on the request before any response
       has started (refused, reset before the head), when the callback is
       never called.  A response cut after its head is not represented. *)
| ServerBind (port : Z) : Op unit.
    (* what the runtime makes of a [listen(port, callback)] call once
       the caller has gone on: [Ok] is the bind done and the listening
       event, [Err] the error event of a failed bind (EADDRINUSE) *)

(** What the program does to the outside without waiting for an answer. *)
Inductive Output : Type :=
| ConsoleLog (msg : string)
| ConsoleError (msg : string) (err : Error)
| ResWriteHead (status : Z) (hs : Headers)   (* res.writeHead(status, hs) *)
| ResEnd (body : string)                     (* res.end(body) *)
| ResPipe (body : string)                    (* proxyRes.pipe(res, { end: true }) *)
| ServerListen (port : Z).                   (* the call proxyServer.listen(port, callback) *)

(** A program: it returns, throws (an uncaught exception or a rejected
    promise), ends the process with [process.exit(code)], emits an output,
    or calls a collaborator and goes on with the answer. *)
Inductive Prog (A : Type) : Type :=
| Ret (a : A)
| Throw (e : Error)
| Exit (code : Z)
| Out (o : Output) (k : Prog A)
| Call (X : Type) (op : Op X) (k : Result X -> Prog A).
Arguments Ret {A} a.
Arguments Throw {A} e.
Arguments Exit {A} code.
Arguments Out {A} o k.
Arguments Call {A X} op k.

Fixpoint bind {A B} (p : Prog A) (f : A -> Prog B) : Prog B :=
  match p with
  | Ret a => f a
  | Throw e => Throw e
  | Exit c => Exit c
  | Out o k => Out o (bind k f)
  | Call op k => Call op (fun r => bind (k r) f)
  end.

(** [try { p } catch (err) { h err }]. *)
Fixpoint try_catch {A} (p : Prog A) (h : Error -> Prog A) : Prog A :=
  match p with
  | Ret a => Ret a
  | Throw e => h e
  | Exit c => Exit c
  | Out o k => Out o (try_catch k h)
  | Call op k => Call op (fun r => try_catch (k r) h)
  end.

(** [await op]: the answer, or the rejection thrown. *)
Definition call {X} (op : Op X) : Prog X :=
  Call op (fun r => match r with Ok x => Ret x | Err e => Throw e end).

Definition out (o : Output) : Prog unit := Out o (Ret tt).

(** The value of a pure call that can throw. *)
Definition lift {A} (r : Result A) : Prog A :=
  match r with Ok a => Ret a | Err e => Throw e end.

Declare Scope prog_scope.
Delimit Scope prog_scope with prog.
Notation "x <- p ;; q" := (bind p (fun x => q))
  (at level 61, p at next level, right associativity) : prog_scope.
Notation "p ;; q" := (bind p (fun _ => q))
  (at level 61, right associativity) : prog_scope.
Local Open Scope prog_scope.

(** ** The world the program runs in *)

(** The collaborators over a state [W] of the outside: ports in use, the
    file system, the bundler, the internal server.  Port selection always
    answers with a port; the others can fail. *)
Record World (W : Type) : Type := {
  getPort : Z -> W -> Z * W;
  readdir : string -> W -> Result (list string) * W;
  fastGlob : list string -> W -> Result (list string) * W;
  fastGlob_undefined : W -> Result (list string) * W;
  esbuild_build : BuildOptions -> W -> Result unit * W;
  esbuild_serve : ServeOptions -> BuildOptions -> W -> Result ServeResult * W;
  http_request : RequestOptions -> string -> W -> Result IncomingMessage * W;
  server_bind : Z -> W -> Result unit * W
}.

Definition answer {W} (world : World W) {X} (op : Op X) (w : W) : Result X * W :=
  match op in Op T return Result T * W with
  | GetPort preferred => let (p, w') := getPort world preferred w in (Ok p, w')
  | FsReaddir path => readdir world path w
  | FastGlob patterns => fastGlob world patterns w
  | FastGlobUndefined => fastGlob_undefined world w
  | EsbuildBuild options => esbuild_build world options w
  | EsbuildServe serveOptions options => esbuild_serve world serveOptions options w
  | HttpRequest options body => http_request world options body w
  | ServerBind port => server_bind world port w
  end.

(** One entry of the run's record: an output, or a call and its answer. *)
Inductive Event : Type :=
| EvOut (o : Output)
| EvCall (X : Type) (op : Op X) (r : Result X).
Arguments EvCall {X} op r.

(** How a run ends. *)
Inductive Outcome (A : Type) : Type :=
| Returns (a : A)
| Throws (e : Error)
| Exits (code : Z).
Arguments Returns {A} a.
Arguments Throws {A} e.
Arguments Exits {A} code.

(** The run of [p] from the state [w]: how it ends, the events in order,
    and the state left. *)
Fixpoint run {W A} (world : World W) (p : Prog A) (w : W)
  : Outcome A * list Event * W :=
  match p with
  | Ret a => (Returns a, [], w)
  | Throw e => (Throws e, [], w)
  | Exit c => (Exits c, [], w)
  | Out o k =>
      let '(r, tr, w') := run world k w in (r, EvOut o :: tr, w')
  | Call op k =>
      let (x, w1) := answer world op w in
      let '(r, tr, w') := run world (k x) w1 in (r, EvCall op x :: tr, w')
  end.

Definition outcome {W A} (x : Outcome A * list Event * W) : Outcome A := fst (fst x).
Definition trace {W A} (x : Outcome A * list Event * W) : list Event := snd (fst x).

(** The ports asked of the port-selection collaborator, in order. *)
Fixpoint ports_requested (tr : list Event) : list Z :=
  match tr with
  | [] => []
  | EvCall (GetPort preferred) _ :: rest => preferred :: ports_requested rest
  | _ :: rest => ports_requested rest
  end.

(** The ports a listener was bound to, in order. *)
Fixpoint ports_listened (tr : list Event) : list Z :=
  match tr with
  | [] => []
  | EvOut (ServerListen p) :: rest => p :: ports_listened rest
  | _ :: rest => ports_listened rest
  end.

(** Whether the run opened a request to the internal server. *)
Fixpoint contacts_internal (tr : list Event) : bool :=
  match tr with
  | [] => false
  | EvCall (HttpRequest _ _) _ :: _ => true
  | _ :: rest => contacts_internal rest
  end.

(** The response the client of the proxy sees. *)
Record Response : Type := {
  resp_status : Z;
  resp_headers : Headers;
  resp_body : string
}.

(** The response written on [res] during a run: the head of the first
    [writeHead], the body of the [end] or [pipe] after it. *)
Fixpoint response_of (tr : list Event) : option Response :=
  match tr with
  | [] => None
  | EvOut (ResWriteHead st hs) :: rest =>
      (fix body_of (l : list Event) : option Response :=
         match l with
         | [] => None
         | EvOut (ResEnd b) :: _ | EvOut (ResPipe b) :: _ =>
             Some {| resp_status := st; resp_headers := hs; resp_body := b |}
         | _ :: l' => body_of l'
         end) rest
  | _ :: rest => response_of rest
  end.

(** ** The module [server.js] *)

Section Server.

Context {lib : NodeLib}.

(** [/^https?:\/\//] *)
Definition re_http : Regex.t :=
  Regex.Seq Regex.Bol
    (Regex.Seq (Regex.lit "http")
       (Regex.Seq (Regex.Opt (Regex.Chr "s")) (Regex.lit "://"))).

(** [/^react-dom\/test-utils$/] *)
Definition re_react_dom_test_utils : Regex.t :=
  Regex.Seq Regex.Bol (Regex.Seq (Regex.lit "react-dom/test-utils") Regex.Eol).

(** [/^react-dom$/] *)
Definition re_react_dom : Regex.t :=
  Regex.Seq Regex.Bol (Regex.Seq (Regex.lit "react-dom") Regex.Eol).

(** [/^react$/] *)
Definition re_react : Regex.t :=
  Regex.Seq Regex.Bol (Regex.Seq (Regex.lit "react") Regex.Eol).

(** Custom resolver that externalizes [http://] and [https://] imports. *)
Definition httpExternalResolver : Plugin :=
  {| name := "http-external";
     setup :=
       [ {| filter := re_http;
            callback := fun path =>
              Ok {| res_path := path; res_external := true |} |} ] |}.

(** [return { path: require.resolve(request) }]. *)
Definition resolved (request : string) : Result OnResolveResult :=
  match require_resolve request with
  | Ok p => Ok {| res_path := p; res_external := false |}
  | Err e => Err e
  end.

(** Custom resolver that rewrites react to preact/compat. *)
Definition preactResolver : Plugin :=
  {| name := "preact";
     setup :=
       [ {| filter := re_react_dom_test_utils;
            callback := fun _ => resolved "preact/test-utils" |};
         {| filter := re_react_dom;
            callback := fun _ => resolved "preact/compat" |};
         {| filter := re_react;
            callback := fun _ => resolved "preact/compat" |} ] |}.

Definition getDefaultConfig : BuildOptions :=
  {| entryPoints := None; outdir := None; sourcemap := None;
     bundle_opt := Some true;
     format := Some "esm";
     target := Some ["es2020"];
     plugins := None; jsxFactory := None; jsxFragment := None |}.

Definition getExtraConfig (preact : bool) : BuildOptions :=
  let plugins0 := [httpExternalResolver] in
  let plugins1 :=
    if preact then (plugins0 ++ [preactResolver])%list else plugins0 in
  let jsxConfig :=
    if preact then
      {| entryPoints := None; outdir := None; sourcemap := None;
         bundle_opt := None; format := None; target := None; plugins := None;
         jsxFactory := Some "h";
         jsxFragment := Some "Fragment" |}
    else emptyOptions in
  spread
    {| entryPoints := None; outdir := None; sourcemap := None;
       bundle_opt := None; format := None; target := None;
       plugins := Some plugins1;
       jsxFactory := None; jsxFragment := None |}
    jsxConfig.

(** The Import Rewrite Policy under a given alias mode: what the plugins
    of [getExtraConfig(preact)] make of a specifier. *)
Definition classify (preact : bool) (specifier : string) : Classification :=
  match plugins (getExtraConfig preact) with
  | Some ps => dispatch (hooks_of ps) specifier
  | None => Unchanged
  end.

(** [glob.map((g) => underline(path.join(process.cwd(), g))).join(", ")] *)
Definition printLocation_of (glob : list string) : string :=
  Str.join ", " (List.map (fun g => underline (path_join process_cwd g)) glob).

(** The object literal [bundle] hands to [esbuild.build]:
    [{ entryPoints, outdir, ...getDefaultConfig(), ...getExtraConfig(preact) }]. *)
Definition bundleConfig (entryPoints : list string) (outdir : string)
           (preact : bool) : BuildOptions :=
  spread
    (spread
       {| entryPoints := Some entryPoints;
          outdir := Some outdir;
          sourcemap := None; bundle_opt := None; format := None;
          target := None; plugins := None;
          jsxFactory := None; jsxFragment := None |}
       getDefaultConfig)
    (getExtraConfig preact).

Definition bundle (glob : list string) (preact : bool) (outdir : string)
  : Prog unit :=
  entryPoints <- call (FastGlob glob) ;;
  let printLocation := printLocation_of glob in
  try_catch
    (out (ConsoleLog ("ESBuild bundling " ++ printLocation ++ " into "
                      ++ underline outdir ++ " directory")) ;;
     call (EsbuildBuild (bundleConfig entryPoints outdir preact)))
    (fun err =>
       out (ConsoleError "Error occurred during bundling" err) ;;
       Exit 1).

Definition templateForPathname (pathname : string) : string :=
  Str.unlines
    [ "// Development plugin with auto-reload";
      "class Plugin {";
      "  constructor() {";
      "    this.plugin = null;";
      "  }";
      "  async render(container) {";
      "    const cacheBust = Date.now();";
      "    const modulePath = " ++ Str.dq ++ "/PluginTemplate.js?" ++ Str.dq
        ++ " + cacheBust;";
      "    const { default: RevealMarket } = await import(modulePath);";
      "    this.plugin = new RevealMarket();";
      "    await this.plugin?.render?.(container);";
      "  }";
      "  draw(ctx) {";
      "    this.plugin?.draw?.(ctx);";
      "  }";
      "  destroy() {";
      "    this.plugin?.destroy?.();";
      "  }";
      "}";
      EmptyString;
      "export default Plugin;" ].

(** [new URL(req.url, `http://${req.headers.host}`)] *)
Definition parse_target (req : IncomingRequest) : Result URL :=
  URL_new (req_url req)
    ("http://" ++ template_of (Obj.get "host" (req_headers req))).

(** The [options] of the forwarding request. *)
Definition forward_options (host : string) (port : Z) (req : IncomingRequest)
  : RequestOptions :=
  {| opt_hostname := host;
     opt_port := port;
     opt_path := req_url req;
     opt_method := req_method req;
     opt_headers := req_headers req |}.

(** The listener given to [http.createServer]; [host] and [port] are the
    bindings of [esbuild.serve]'s answer it closes over.  The forward is
    taken whole: the request either fails before any response, or is
    answered by a response whose body is piped to its end. *)
Definition requestListener (host : string) (port : Z) (req : IncomingRequest)
  : Prog unit :=
  u <- lift (parse_target req) ;;
  if searchParams_has "dev" u then
    out (ResWriteHead 200
           [ ("content-type", HStr "application/javascript");
             ("access-control-allow-origin", HStr "*") ]) ;;
    out (ResEnd (templateForPathname (pathname u))) ;;
    Ret tt
  else
    let options := forward_options host port req in
    (* Forward each incoming request to esbuild, body included *)
    proxyRes <- call (HttpRequest options (req_body req)) ;;
    out (ResWriteHead (statusCode proxyRes)
           (Obj.set "access-control-allow-origin" (HStr "*")
              (headers proxyRes))) ;;
    out (ResPipe (msg_body proxyRes)) ;;
    Ret tt.

(** What [start] has set up when it returns: the two ports it obtained,
    the resolved entry points, the address [esbuild.serve] answered
    with, which the listener forwards to, and the two callbacks it has
    handed to the server: the request listener and the callback of the
    [listen] call. *)
Record ServeSession : Type := {
  publicPort : Z;              (* proxyPort *)
  requestedInternalPort : Z;   (* esbuildPort *)
  internalHost : string;       (* host *)
  internalPort : Z;            (* port *)
  sessionEntryPoints : list string;
  listener : IncomingRequest -> Prog unit;
  onListening : Prog unit
}.

(** JavaScript truthiness of an optional string option: [undefined] and
    the empty string are falsy. *)
Definition truthy (s : option string) : option string :=
  match s with
  | Some EmptyString => None
  | other => other
  end.

(** The object literal [esbuildConfig] of [start]:
    [{ sourcemap: true, entryPoints, ...getDefaultConfig(),
       ...getExtraConfig(preact) }]. *)
Definition esbuildConfig (entryPoints : list string) (preact : bool)
  : BuildOptions :=
  spread
    (spread
       {| entryPoints := Some entryPoints;
          outdir := None;
          sourcemap := Some true;
          bundle_opt := None; format := None; target := None;
          plugins := None; jsxFactory := None; jsxFragment := None |}
       getDefaultConfig)
    (getExtraConfig preact).

Definition start (dir : option string) (ext : option (list string))
           (glob : option (list string)) (preact : bool)
  : Prog ServeSession :=
  proxyPort <- call (GetPort 2222) ;;
  esbuildPort <- call (GetPort 2221) ;;
  resolvedEntries <-
    match truthy dir with
    | Some dir =>
        (* Deprecated options code path *)
        let ext := match ext with Some e => e | None => [".js"; ".ts"] end in
        let pluginDir := path_join process_cwd dir in
        allFiles <- call (FsReaddir pluginDir) ;;
        let entryPoints :=
          List.map (fun filename => path_join dir filename)
            (List.filter (fun filename => Str.mem (path_extname filename) ext)
               allFiles) in
        Ret (entryPoints, underline pluginDir)
    | None =>
        match glob with
        | Some glob =>
            entryPoints <- call (FastGlob glob) ;;
            Ret (entryPoints, printLocation_of glob)
        | None =>
            (* fastGlob(undefined), then glob.map on undefined *)
            entryPoints <- call FastGlobUndefined ;;
            Throw "TypeError: Cannot read properties of undefined (reading 'map')"
        end
    end ;;
  let '(entryPoints, printLocation) := resolvedEntries in
  let esbuildServeConfig := {| serve_port := esbuildPort |} in
  served <- call (EsbuildServe esbuildServeConfig
                    (esbuildConfig entryPoints preact)) ;;
  let (host, port) := served in
  let proxyServer := requestListener host port in
  let listening :=
    out (ConsoleLog ("ESBuild for " ++ printLocation ++ " on port "
                     ++ underline (Z_to_string esbuildPort))) ;;
    out (ConsoleLog ("Development server started on "
                     ++ bold ("http://127.0.0.1:" ++ Z_to_string proxyPort
                              ++ "/"))) in
  out (ServerListen proxyPort) ;;
  Ret {| publicPort := proxyPort;
         requestedInternalPort := esbuildPort;
         internalHost := host;
         internalPort := port;
         sessionEntryPoints := entryPoints;
         listener := proxyServer;
         onListening := listening |}.

(** What becomes of the [listen] call once [start] has returned: the
    runtime binds the session's public port; when the bind is done it
    runs the callback given to [listen]; a failed bind is an error event
    on the server, which has no listener for it, and so an uncaught
    exception. *)
Definition listening (s : ServeSession) : Prog unit :=
  call (ServerBind (publicPort s)) ;;
  onListening s.

(** The two lines the callback of the [listen] call prints. *)
Definition announcements (proxyPort esbuildPort : Z) (printLocation : string)
  : list Output :=
  [ ConsoleLog ("ESBuild for " ++ printLocation ++ " on port "
                ++ underline (Z_to_string esbuildPort));
    ConsoleLog ("Development server started on "
                ++ bold ("http://127.0.0.1:" ++ Z_to_string proxyPort ++ "/")) ].

(** The bindings [start] ends with, from the two ports obtained, the
    bundler's answer, the entry points and the location to announce. *)
Definition session_of (proxyPort esbuildPort : Z) (served : ServeResult)
           (entryPoints : list string) (printLocation : string)
  : ServeSession :=
  {| publicPort := proxyPort;
     requestedInternalPort := esbuildPort;
     internalHost := host served;
     internalPort := port served;
     sessionEntryPoints := entryPoints;
     listener := requestListener (host served) (port served);
     onListening :=
       List.fold_right (fun o k => Out o k) (Ret tt)
         (announcements proxyPort esbuildPort printLocation) |}.

(** The events of [start] from the two port requests on, once the entry
    points are resolved and the bundler serves: the bundler's start and
    the [listen] call. *)
Definition serving_events (proxyPort esbuildPort : Z) (served : ServeResult)
           (entryPoints : list string) (preact : bool) : list Event :=
  [ EvCall (EsbuildServe {| serve_port := esbuildPort |}
              (esbuildConfig entryPoints preact)) (Ok served);
    EvOut (ServerListen proxyPort) ].

End Server.

(** ** The shape of a startup run *)

Section StartupRun.

Context {lib : NodeLib} {W : Type} (world : World W).
Variables (p1 p2 : Z).

(** The two port requests [start] begins with, and their answers. *)
Definition port_requests : list Event :=
  [EvCall (GetPort 2222) (Ok p1); EvCall (GetPort 2221) (Ok p2)].

(** What follows entry-point resolution ([found] is its event): the
    bundler is started on the second port obtained, and [listen] called
    with the first. *)
Definition serve_and_listen (preact : bool) (found : Event)
           (entries : list string) (location : string) (w3 : W)
  : Outcome ServeSession * list Event * W :=
  match esbuild_serve world {| serve_port := p2 |}
          (esbuildConfig entries preact) w3 with
  | (Ok served, w4) =>
      (Returns (session_of p1 p2 served entries location),
       (port_requests
          ++ found :: serving_events p1 p2 served entries preact)%list,
       w4)
  | (Err e, w4) =>
      (Throws e,
       (port_requests
          ++ [found;
              EvCall (EsbuildServe {| serve_port := p2 |}
                        (esbuildConfig entries preact)) (Err e)])%list,
       w4)
  end.

End StartupRun.

(** ** Readings of the specification's wording *)



(** The legacy directory convention in the specification's words: list the
    directory, keep the files whose extension is in the allow-list
    ([.js] and [.ts] when none is supplied), each under the directory. *)
Definition directory_entries {lib : NodeLib} (dir : string)
           (ext : option (list string)) (listing : list string) : list string :=
  let allow := match ext with Some e => e | None => [".js"; ".ts"] end in
  List.map (path_join dir)
    (List.filter (fun f => Str.mem (path_extname f) allow) listing).

(** Whether the run expanded a glob pattern. *)
Fixpoint uses_glob (tr : list Event) : bool :=
  match tr with
  | [] => false
  | EvCall (FastGlob _) _ :: _ => true
  | _ :: rest => uses_glob rest
  end.

(** Whether the run reported [err] to the operator on the error console. *)
Fixpoint reports_error (err : Error) (tr : list Event) : bool :=
  match tr with
  | [] => false
  | EvOut (ConsoleError _ e) :: rest => String.eqb e err || reports_error err rest
  | _ :: rest => reports_error err rest
  end.

(** ** A reference platform

    One concrete [NodeLib] and one concrete [World], on which the programs
    above can be run: a POSIX host, origin-form request targets without
    percent escapes, bare file names, chalk without colour support. *)

Module Reference.

(** [s] up to the first [c], and what follows that [c] if there is one. *)
Fixpoint break (c : ascii) (s : string) : string * option string :=
  match s with
  | EmptyString => (EmptyString, None)
  | String a rest =>
      if Ascii.eqb a c then (EmptyString, Some rest)
      else let (x, y) := break c rest in (String a x, y)
  end.

(** [s.split(c)]. *)
Fixpoint split (c : ascii) (s : string) : list string :=
  match s with
  | EmptyString => [EmptyString]
  | String a rest =>
      if Ascii.eqb a c then EmptyString :: split c rest
      else match split c rest with
           | x :: xs => String a x :: xs
           | [] => [String a EmptyString]
           end
  end.

Definition or_empty (s : option string) : string :=
  match s with Some x => x | None => EmptyString end.

(** The name/value pairs of a query: pieces between [&], empty pieces
    skipped, each cut at its first [=]. *)
Definition parse_query (q : string) : list (string * string) :=
  List.map (fun piece => let (n, v) := break "=" piece in (n, or_empty v))
    (List.filter (fun piece => negb (String.eqb piece EmptyString))
       (split "&" q)).

(** An authority, and what follows it: [s] is cut before its first [/],
    [?] or [#]. *)
Fixpoint span_authority (s : string) : string * string :=
  match s with
  | EmptyString => (EmptyString, EmptyString)
  | String a rest =>
      if (Ascii.eqb a "/" || Ascii.eqb a "?" || Ascii.eqb a "#")%bool
      then (EmptyString, s)
      else let (x, y) := span_authority rest in (String a x, y)
  end.

(** The number a string of decimal digits writes, if it is one. *)
Fixpoint decimal (acc : Z) (s : string) : option Z :=
  match s with
  | EmptyString => Some acc
  | String c rest =>
      let n := Z.of_N (N_of_ascii c) in
      if ((48 <=? n) && (n <=? 57))%bool
      then decimal (10 * acc + (n - 48)) rest
      else None
  end.

(** A port is accepted when it is empty or a number up to 65535. *)
Definition valid_port (p : option string) : bool :=
  match p with
  | None => true
  | Some digits =>
      match decimal 0 digits with
      | Some n => n <=? 65535
      | None => false
      end
  end.

(** An authority [host] or [host:port] is accepted when the host is not
    empty and has no space, and the port is accepted.  A host in brackets
    (an IPv6 literal) ends at its closing bracket. *)
Definition valid_authority (a : string) : bool :=
  negb (Str.includes " " a)
  && if Str.startsWith "[" a then
       match break "]" a with
       | (_, Some EmptyString) => true
       | (_, Some (String c port)) => Ascii.eqb c ":" && valid_port (Some port)
       | (_, None) => false
       end
     else
       let (h, port) := break ":" a in
       negb (String.eqb h EmptyString) && valid_port port.

(** A base is accepted when it is [http://] followed by an accepted
    authority. *)
Definition valid_base (base : string) : bool :=
  Str.startsWith "http://" base
  && valid_authority (fst (span_authority (String.substring 7 (String.length base) base))).

(** The path and the query of a target that begins at its path. *)
Definition path_and_query (target : string) : URL :=
  let (before_hash, _) := break "#" target in
  let (path, query) := break "?" before_hash in
  {| pathname := match path with EmptyString => "/" | _ => path end;
     searchParams := parse_query (or_empty query) |}.

(** [new URL(input, base)]: the base must be accepted; a target that
    begins with [//] names its own authority, which must be accepted
    too. *)
Definition url_of (input base : string) : Result URL :=
  if valid_base base then
    if Str.startsWith "//" input then
      let (authority, rest) :=
        span_authority (String.substring 2 (String.length input) input) in
      if valid_authority authority then Ok (path_and_query rest)
      else Err "TypeError: Invalid URL"
    else Ok (path_and_query input)
  else Err "TypeError: Invalid URL".

(** The suffix of [s] that starts at its last dot. *)
Fixpoint last_dot_suffix (s : string) : option string :=
  match s with
  | EmptyString => None
  | String c rest =>
      match last_dot_suffix rest with
      | Some x => Some x
      | None => if Ascii.eqb c "." then Some s else None
      end
  end.

(** [path.extname] of a bare file name: from the last dot on, a dot in
    first place not counting, and nothing for [..]. *)
Definition extname (f : string) : string :=
  match f with
  | EmptyString => EmptyString
  | String _ rest =>
      if String.eqb f ".." then EmptyString
      else or_empty (last_dot_suffix rest)
  end.

(** [require.resolve(request)] with preact installed. *)
Definition resolve (request : string) : Result string :=
  if String.eqb request "preact/compat" then
    Ok "/srv/plugins/node_modules/preact/compat/dist/compat.js"
  else if String.eqb request "preact/test-utils" then
    Ok "/srv/plugins/node_modules/preact/test-utils/dist/testUtils.js"
  else Err ("Cannot find module '" ++ request ++ "'").

#[export] Instance lib : NodeLib :=
  {| URL_new := url_of;
     path_join := fun a b => a ++ "/" ++ b;
     path_extname := extname;
     process_cwd := "/srv/plugins";
     require_resolve := resolve;
     underline := fun s => s;
     bold := fun s => s |}.

(** The outside: ports in use, ports the port selection has handed out,
    directory listings, what the glob patterns expand to, whether the
    build fails, and the internal server as a function of the forwarded
    request. *)
Record Host : Type := {
  taken : list Z;
  handed : list Z;
  listings : list (string * list string);
  expansion : list string;
  build_error : option Error;
  upstream : RequestOptions -> string -> Result IncomingMessage
}.

Definition in_use (p : Z) (h : Host) : bool := existsb (Z.eqb p) (taken h).

(** A port the port selection will not answer: in use, or handed out
    before. *)
Definition unavailable (p : Z) (h : Host) : bool :=
  in_use p h || existsb (Z.eqb p) (handed h).

(** The lowest port from [p] on that is available. *)
Fixpoint first_free (fuel : nat) (p : Z) (h : Host) : Z :=
  match fuel with
  | O => p
  | S n => if unavailable p h then first_free n (p + 1) h else p
  end.

(** The state after port [p] was handed out. *)
Definition hand (p : Z) (h : Host) : Host :=
  {| taken := taken h; handed := p :: handed h; listings := listings h;
     expansion := expansion h; build_error := build_error h;
     upstream := upstream h |}.

(** The port-selection collaborator (get-port): the preferred port when
    it is available, otherwise a free port (here the lowest available
    from 1024).  The port is probed, not bound, and remembered, so that
    it is not answered a second time. *)
Definition pick_port (preferred : Z) (h : Host) : Z * Host :=
  let p :=
    if unavailable preferred h
    then first_free (S (List.length (taken h) + List.length (handed h))) 1024 h
    else preferred in
  (p, hand p h).

(** The state after port [p] was bound. *)
Definition bind_port (p : Z) (h : Host) : Host :=
  {| taken := p :: taken h; handed := handed h; listings := listings h;
     expansion := expansion h; build_error := build_error h;
     upstream := upstream h |}.

Definition world : World Host :=
  {| getPort := pick_port;
     readdir := fun path h =>
       (match Obj.get path (listings h) with
        | Some l => Ok l
        | None => Err ("ENOENT: no such file or directory, scandir '" ++ path ++ "'")
        end, h);
     fastGlob := fun _ h => (Ok (expansion h), h);
     fastGlob_undefined := fun h =>
       (Err "TypeError: Patterns must be a string (non empty) or an array of strings",
        h);
     esbuild_build := fun _ h =>
       (match build_error h with Some e => Err e | None => Ok tt end, h);
     esbuild_serve := fun s _ h =>
       if in_use (serve_port s) h then (Err "listen EADDRINUSE", h)
       else (Ok {| host := "127.0.0.1"; port := serve_port s |},
             bind_port (serve_port s) h);
     http_request := fun o b h => (upstream h o b, h);
     server_bind := fun p h =>
       if in_use p h then (Err "listen EADDRINUSE: address already in use", h)
       else (Ok tt, bind_port p h) |}.

(** Requests and states of the outside to run the programs on. *)

Definition dev_request : IncomingRequest :=
  {| req_method := "GET";
     req_url := "/foo/bar?dev=1";
     req_headers := [("host", HStr "127.0.0.1:2222")];
     req_body := EmptyString |}.

Definition asset_request : IncomingRequest :=
  {| req_method := "GET";
     req_url := "/PluginTemplate.js?1700000000000";
     req_headers := [("host", HStr "127.0.0.1:2222")];
     req_body := EmptyString |}.

(** An internal server that sets no cross-origin header. *)
Definition plain_upstream (o : RequestOptions) (body : string)
  : Result IncomingMessage :=
  Ok {| statusCode := 200;
        headers := [("content-type", HStr "application/javascript")];
        msg_body := "export default class {}" |}.

(** An internal server that allows one origin only. *)
Definition strict_upstream (o : RequestOptions) (body : string)
  : Result IncomingMessage :=
  Ok {| statusCode := 200;
        headers := [("content-type", HStr "application/javascript");
                    ("access-control-allow-origin", HStr "https://plugins.example")];
        msg_body := "export default class {}" |}.

Definition host_with (ports : list Z) (failure : option Error)
           (up : RequestOptions -> string -> Result IncomingMessage) : Host :=
  {| taken := ports;
     handed := [];
     listings := [("/srv/plugins/plugins",
                   ["a.js"; "b.ts"; "notes.md"; ".eslintrc"; "c.test.js"])];
     expansion := ["src/main.ts"];
     build_error := failure;
     upstream := up |}.

(** Nothing in the way. *)
Definition idle : Host := host_with [] None plain_upstream.


(** A source tree that does not build. *)
Definition broken : Host :=
  host_with [] (Some "Build failed with 1 error") plain_upstream.

(** An internal server with a cross-origin policy of its own. *)
Definition guarded : Host := host_with [] None strict_upstream.

End Reference.

(** ** Further readings of runs and of the rewrite rules *)

(** The rewrite rules as one table, first match applied: a network
    specifier is externalized as written; in alias mode the three React
    names are redirected to what module resolution answers; anything else
    is left to the bundler. *)
Definition policy {lib : NodeLib} (preact : bool) (specifier : string)
  : Classification :=
  let redirect request :=
    match require_resolve request with
    | Ok p => Redirect p
    | Err e => ResolveFailed e
    end in
  if Str.startsWith "http://" specifier || Str.startsWith "https://" specifier
  then Externalize specifier
  else if negb preact then Unchanged
  else if String.eqb "react-dom/test-utils" specifier
  then redirect "preact/test-utils"
  else if String.eqb "react-dom" specifier || String.eqb "react" specifier
  then redirect "preact/compat"
  else Unchanged.


(** Whether the run wrote anything on [res]. *)
Fixpoint writes_on_res (tr : list Event) : bool :=
  match tr with
  | [] => false
  | EvOut (ResWriteHead _ _) :: _ => true
  | EvOut (ResEnd _) :: _ => true
  | EvOut (ResPipe _) :: _ => true
  | _ :: rest => writes_on_res rest
  end.

(** Whether the run wrote anything on the consoles. *)
Fixpoint writes_on_console (tr : list Event) : bool :=
  match tr with
  | [] => false
  | EvOut (ConsoleLog _) :: _ => true
  | EvOut (ConsoleError _ _) :: _ => true
  | _ :: rest => writes_on_console rest
  end.

(** How many times the run called [esbuild.serve]. *)
Fixpoint serve_attempts (tr : list Event) : nat :=
  match tr with
  | [] => O
  | EvCall (EsbuildServe _ _) _ :: rest => S (serve_attempts rest)
  | _ :: rest => serve_attempts rest
  end.

(** How many times the run called [esbuild.build]. *)
Fixpoint build_attempts (tr : list Event) : nat :=
  match tr with
  | [] => O
  | EvCall (EsbuildBuild _) _ :: rest => S (build_attempts rest)
  | _ :: rest => build_attempts rest
  end.

(** Whether the run listed a directory. *)
Fixpoint lists_directory (tr : list Event) : bool :=
  match tr with
  | [] => false
  | EvCall (FsReaddir _) _ :: _ => true
  | _ :: rest => lists_directory rest
  end.

(** Whether every binding of a listener in the run comes after an
    [esbuild.serve] that answered; [served] tells whether one has
    answered before the run's first event. *)
Fixpoint listens_after_serve (served : bool) (tr : list Event) : bool :=
  match tr with
  | [] => true
  | EvCall (EsbuildServe _ _) (Ok _) :: rest => listens_after_serve true rest
  | EvOut (ServerListen _) :: rest => served && listens_after_serve served rest
  | _ :: rest => listens_after_serve served rest
  end.


(** The ports on which the run bound a listening socket, in order. *)
Fixpoint binds (tr : list Event) : list Z :=
  match tr with
  | [] => []
  | EvCall (ServerBind p) (Ok _) :: rest => p :: binds rest
  | _ :: rest => binds rest
  end.

(** More requests and states of the outside, for the failure paths. *)

Module Scenario.


(** A request whose [Host] header is empty: its base is not a URL. *)
Definition empty_host : IncomingRequest :=
  {| req_method := "GET";
     req_url := "/PluginTemplate.js?dev";
     req_headers := [("host", HStr EmptyString)];
     req_body := EmptyString |}.

(** A [POST] to forward. *)
Definition upload : IncomingRequest :=
  {| req_method := "POST";
     req_url := "/esbuild?x=1&y=2";
     req_headers := [("host", HStr "localhost:2222");
                     ("content-length", HStr "5")];
     req_body := "hello" |}.

(** An internal server that cannot be reached. *)
Definition refused (o : RequestOptions) (body : string) : Result IncomingMessage :=
  Err "connect ECONNREFUSED 127.0.0.1:2221".

Definition offline : Reference.Host :=
  Reference.host_with [] None refused.

(** A bundler that serves on port 8000 whatever port it is given. *)
Definition stubborn : World Reference.Host :=
  {| getPort := Reference.pick_port;
     readdir := readdir Reference.world;
     fastGlob := fastGlob Reference.world;
     fastGlob_undefined := fastGlob_undefined Reference.world;
     esbuild_build := esbuild_build Reference.world;
     esbuild_serve := fun _ _ h =>
       (Ok {| host := "0.0.0.0"; port := 8000 |}, Reference.bind_port 8000 h);
     http_request := http_request Reference.world;
     server_bind := server_bind Reference.world |}.

(** A file system on which pattern expansion fails. *)
Definition unreadable : World Reference.Host :=
  {| getPort := Reference.pick_port;
     readdir := readdir Reference.world;
     fastGlob := fun _ h => (Err "EACCES: permission denied, scandir 'src'", h);
     fastGlob_undefined := fastGlob_undefined Reference.world;
     esbuild_build := esbuild_build Reference.world;
     esbuild_serve := esbuild_serve Reference.world;
     http_request := http_request Reference.world;
     server_bind := server_bind Reference.world |}.

(** A port selection without memory: it answers 3000 to every request. *)
Definition forgetful : World Reference.Host :=
  {| getPort := fun _ h => (3000, h);
     readdir := readdir Reference.world;
     fastGlob := fastGlob Reference.world;
     fastGlob_undefined := fastGlob_undefined Reference.world;
     esbuild_build := esbuild_build Reference.world;
     esbuild_serve := esbuild_serve Reference.world;
     http_request := http_request Reference.world;
     server_bind := server_bind Reference.world |}.

(** The states [Reference.idle] goes through in a startup: after the two
    port requests, and after the bundler has bound its port. *)
Definition asked : Reference.Host :=
  Reference.hand 2221 (Reference.hand 2222 Reference.idle).

Definition serving : Reference.Host := Reference.bind_port 2221 asked.

(** A request whose [Host] header is there but whose target names an
    empty authority of its own. *)
Definition empty_authority : IncomingRequest :=
  {| req_method := "GET";
     req_url := "//?dev";
     req_headers := [("host", HStr "127.0.0.1:2222")];
     req_body := EmptyString |}.

End Scenario.

(** * Properties *)

(** ** Strings and objects *)

Lemma startsWith_prefix (p s : string) :
  Str.startsWith p s = true -> exists post, s = p ++ post.
Proof.
  revert s; induction p as [|a p IH]; intros s H.
  - now exists s.
  - destruct s as [|b s]; [discriminate|].
    cbn in H. destruct (Ascii.eqb a b) eqn:E; [|discriminate].
    apply Ascii.eqb_eq in E; subst b.
    destruct (IH _ H) as [post ->]. now exists post.
Qed.

Lemma includes_Substring (needle s : string) :
  Str.includes needle s = true -> Str.Substring needle s.
Proof.
  induction s as [|c s IH]; cbn; intros H.
  - rewrite orb_false_r in H.
    destruct (startsWith_prefix _ _ H) as [post E].
    exists EmptyString, post. exact E.
  - apply orb_true_iff in H as [H|H].
    + destruct (startsWith_prefix _ _ H) as [post E].
      exists EmptyString, post. exact E.
    + destruct (IH H) as (pre & post & ->).
      now exists (String c pre), post.
Qed.

Lemma get_set_same {V} (k : string) (v : V) (o : Obj.t V) :
  Obj.get k (Obj.set k v o) = Some v.
Proof.
  induction o as [|[k' v'] o IH]; cbn.
  - now rewrite String.eqb_refl.
  - destruct (String.eqb k k') eqn:E; cbn; rewrite E; [reflexivity|exact IH].
Qed.


Lemma keys_set_present {V} (k : string) (v : V) (o : Obj.t V) :
  Obj.has k o = true -> Obj.keys (Obj.set k v o) = Obj.keys o.
Proof.
  unfold Obj.has, Obj.keys.
  induction o as [|[k' v'] o IH]; cbn; [discriminate|].
  destruct (String.eqb k k') eqn:E; cbn; [reflexivity|].
  intros H. f_equal. now apply IH.
Qed.

Lemma set_absent {V} (k : string) (v : V) (o : Obj.t V) :
  Obj.has k o = false -> Obj.set k v o = (o ++ [(k, v)])%list.
Proof.
  unfold Obj.has. induction o as [|[k' v'] o IH]; cbn; [reflexivity|].
  destruct (String.eqb k k') eqn:E; [discriminate|].
  intros H. now rewrite IH.
Qed.

(** ** The resolver filters *)

Lemma search_anchored_later (r : Regex.t) (s : string) :
  Regex.search (Regex.Seq Regex.Bol r) false s = false.
Proof.
  induction s as [|c s IH]; cbn; [reflexivity|exact IH].
Qed.

Lemma test_anchored (r : Regex.t) (s : string) :
  Regex.test (Regex.Seq Regex.Bol r) s
  = Regex.matches_at (Regex.Seq Regex.Bol r) (true, s).
Proof.
  unfold Regex.test. destruct s as [|c s]; cbn [Regex.search].
  - apply orb_false_r.
  - rewrite search_anchored_later. apply orb_false_r.
Qed.

#[local] Opaque Ascii.eqb.

Ltac next_char :=
  match goal with
  | |- context [match ?s with EmptyString => _ | String _ _ => _ end] =>
      is_var s; destruct s; cbn
  | |- context [Ascii.eqb ?a ?b] =>
      tryif is_var b then
        (let E := fresh "E" in
         destruct (Ascii.eqb a b) eqn:E;
         [apply Ascii.eqb_eq in E; subst b|]; cbn)
      else
        (let v := eval vm_compute in (Ascii.eqb a b) in
         change (Ascii.eqb a b) with v; cbn)
  end.

(** The filter [/^https?:\/\//] accepts exactly the specifiers that begin
    with [http://] or [https://]. *)
Lemma re_http_prefix (s : string) :
  Regex.test re_http s
  = (Str.startsWith "http://" s || Str.startsWith "https://" s)%bool.
Proof.
  unfold re_http. rewrite test_anchored.
  unfold Regex.matches_at. cbn.
  repeat (first [reflexivity | next_char]).
Qed.

#[local] Transparent Ascii.eqb.

(** ** Import Rewrite Policy *)

Lemma absolute_distinct (p s : string) :
  path_isAbsolute p = true -> path_isAbsolute s = false -> p <> s.
Proof.
  intros Hp Hs E. rewrite E, Hs in Hp. discriminate.
Qed.

(** C3: every module specifier accepted by the filter [/^https?:\/\//] is
    classified as externalize, with its path left as written, both when
    alias mode is enabled and when it is disabled. *)
Theorem http_specifier_externalized (lib : NodeLib) (specifier : string) :
  Regex.test re_http specifier = true ->
  classify true specifier = Externalize specifier
  /\ classify false specifier = Externalize specifier.
Proof.
  intros H. unfold classify, getExtraConfig.
  cbn [spread plugins hooks_of flat_map httpExternalResolver setup app dispatch
       filter callback emptyOptions].
  rewrite H. cbn. split; reflexivity.
Qed.

Lemma http_specifier_externalized_witness :
  Regex.test re_http "https://cdn.skypack.dev/preact" = true
  /\ @classify Reference.lib true "https://cdn.skypack.dev/preact"
     = Externalize "https://cdn.skypack.dev/preact"
  /\ @classify Reference.lib false "https://cdn.skypack.dev/preact"
     = Externalize "https://cdn.skypack.dev/preact".
Proof.
  split; [reflexivity|].
  apply (@http_specifier_externalized Reference.lib
           "https://cdn.skypack.dev/preact").
  reflexivity.
Defined.

(** C4: with alias mode enabled and the alias library installed (module
    resolution answers with absolute file names), [react], [react-dom] and
    [react-dom/test-utils] are each redirected to a non-empty target that
    differs from the specifier; with alias mode disabled all three are
    unchanged. *)
Theorem react_specifiers_aliased (lib : NodeLib) (compat testUtils : string) :
  require_resolve "preact/compat" = Ok compat ->
  require_resolve "preact/test-utils" = Ok testUtils ->
  path_isAbsolute compat = true ->
  path_isAbsolute testUtils = true ->
  (classify true "react" = Redirect compat
   /\ compat <> EmptyString /\ compat <> "react")
  /\ (classify true "react-dom" = Redirect compat
      /\ compat <> EmptyString /\ compat <> "react-dom")
  /\ (classify true "react-dom/test-utils" = Redirect testUtils
      /\ testUtils <> EmptyString /\ testUtils <> "react-dom/test-utils")
  /\ classify false "react" = Unchanged
  /\ classify false "react-dom" = Unchanged
  /\ classify false "react-dom/test-utils" = Unchanged.
Proof.
  intros Hc Ht Ac At.
  assert (D : forall p s, path_isAbsolute p = true ->
                          path_isAbsolute s = false -> p <> s)
    by apply absolute_distinct.
  unfold classify, getExtraConfig.
  cbn [spread plugins hooks_of flat_map httpExternalResolver preactResolver
       setup app emptyOptions].
  repeat split;
    try (apply D; [assumption|reflexivity]);
    try reflexivity;
    cbn [dispatch filter callback];
    repeat match goal with
      | |- context [Regex.test ?r ?s] =>
          let v := eval vm_compute in (Regex.test r s) in
          change (Regex.test r s) with v; cbv iota
      end;
    unfold resolved; rewrite ?Hc, ?Ht; reflexivity.
Qed.

Lemma react_specifiers_aliased_witness :
  let compat := "/srv/plugins/node_modules/preact/compat/dist/compat.js" in
  let testUtils :=
    "/srv/plugins/node_modules/preact/test-utils/dist/testUtils.js" in
  (@require_resolve Reference.lib "preact/compat" = Ok compat
   /\ @require_resolve Reference.lib "preact/test-utils" = Ok testUtils
   /\ path_isAbsolute compat = true
   /\ path_isAbsolute testUtils = true)
  /\ @classify Reference.lib true "react" = Redirect compat
  /\ @classify Reference.lib true "react-dom/test-utils" = Redirect testUtils
  /\ @classify Reference.lib false "react-dom" = Unchanged.
Proof.
  intros compat testUtils.
  split; [repeat split; reflexivity|].
  destruct (@react_specifiers_aliased Reference.lib compat testUtils)
    as ((H1 & _) & _ & (H3 & _) & _ & H5 & _);
    [reflexivity | reflexivity | reflexivity | reflexivity |].
  exact (conj H1 (conj H3 H5)).
Defined.

(** ** Bootstrap Module Generator *)

(** C9: the generated module text does not depend on the pathname: any
    two pathnames give character-identical source text. *)
Theorem templateForPathname_independent (p1 p2 : string) :
  templateForPathname p1 = templateForPathname p2.
Proof.
  reflexivity.
Qed.

Lemma template_has_class (p : string) :
  Str.Substring "class Plugin" (templateForPathname p).
Proof.
  apply includes_Substring. vm_compute. reflexivity.
Qed.

Lemma template_has_module_path (p : string) :
  Str.Substring "/PluginTemplate.js?" (templateForPathname p).
Proof.
  apply includes_Substring. vm_compute. reflexivity.
Qed.

(** ** Dev Proxy Server: the request listener *)

Section Listener.

Context {lib : NodeLib} {W : Type} (world : World W).
Variables (host : string) (port : Z) (req : IncomingRequest) (u : URL).
Hypothesis parsed : parse_target req = Ok u.

(** With the [dev] parameter present the listener is two writes on
    [res] and nothing else. *)
Lemma requestListener_dev :
  searchParams_has "dev" u = true ->
  requestListener host port req
  = Out (ResWriteHead 200
           [ ("content-type", HStr "application/javascript");
             ("access-control-allow-origin", HStr "*") ])
      (Out (ResEnd (templateForPathname (pathname u))) (Ret tt)).
Proof.
  intros D. unfold requestListener. rewrite parsed. cbn. now rewrite D.
Qed.

(** Without it, the listener makes one request to the internal server
    and, when that is answered, the two writes. *)
Lemma run_requestListener_forward (w : W) :
  searchParams_has "dev" u = false ->
  run world (requestListener host port req) w
  = let call := HttpRequest (forward_options host port req) (req_body req) in
    match http_request world (forward_options host port req) (req_body req) w with
    | (Ok proxyRes, w') =>
        (Returns tt,
         [ EvCall call (Ok proxyRes);
           EvOut (ResWriteHead (statusCode proxyRes)
                    (Obj.set "access-control-allow-origin" (HStr "*")
                       (headers proxyRes)));
           EvOut (ResPipe (msg_body proxyRes)) ],
         w')
    | (Err e, w') => (Throws e, [EvCall call (Err e)], w')
    end.
Proof.
  intros D. unfold requestListener. rewrite parsed. cbn. rewrite D. cbn.
  destruct (http_request world _ _ w) as [[proxyRes|e] w']; reflexivity.
Qed.

End Listener.

(** C1, as stated, fails on a request that carries [dev] but whose target
    the URL constructor rejects, here against an empty [Host] header: the
    listener throws at its first statement and no response is written. *)
Lemma dev_request_unanswered :
  let req := Scenario.empty_host in
  let r := run Reference.world
             (@requestListener Reference.lib "127.0.0.1" 2221 req)
             Reference.idle in
  req_url req = "/PluginTemplate.js?dev"
  /\ Obj.get "host" (req_headers req) = Some (HStr EmptyString)
  /\ @parse_target Reference.lib req = Err "TypeError: Invalid URL"
  /\ outcome r = Throws "TypeError: Invalid URL"
  /\ trace r = []
  /\ response_of (trace r) = None
  /\ ~ (exists resp, response_of (trace r) = Some resp /\ resp_status resp = 200).
Proof.
  cbv zeta. repeat split. intros (resp & R & _). discriminate R.
Qed.

(** C1, amended: a request whose target the URL constructor accepts and
    whose query has a parameter named [dev] is answered with status 200,
    [content-type: application/javascript],
    [access-control-allow-origin: *], and a body that contains
    [class Plugin] and [/PluginTemplate.js?]. *)
Theorem dev_request_bootstrap (lib : NodeLib) (W : Type) (world : World W)
        (w : W) (host : string) (port : Z) (req : IncomingRequest) (u : URL) :
  parse_target req = Ok u ->
  searchParams_has "dev" u = true ->
  let r := run world (requestListener host port req) w in
  outcome r = Returns tt
  /\ exists resp,
      response_of (trace r) = Some resp
      /\ resp_status resp = 200
      /\ resp_headers resp
         = [ ("content-type", HStr "application/javascript");
             ("access-control-allow-origin", HStr "*") ]
      /\ Obj.get "content-type" (resp_headers resp)
         = Some (HStr "application/javascript")
      /\ Obj.get "access-control-allow-origin" (resp_headers resp)
         = Some (HStr "*")
      /\ resp_body resp = templateForPathname (pathname u)
      /\ Str.Substring "class Plugin" (resp_body resp)
      /\ Str.Substring "/PluginTemplate.js?" (resp_body resp).
Proof.
  intros P D r. subst r.
  rewrite (requestListener_dev host port req P D).
  split; [reflexivity|].
  eexists. split; [reflexivity|]. cbn [resp_status resp_headers resp_body].
  repeat split.
  - apply template_has_class.
  - apply template_has_module_path.
Qed.

Lemma dev_request_bootstrap_witness :
  exists u,
    @parse_target Reference.lib Reference.dev_request = Ok u
    /\ searchParams_has "dev" u = true
    /\ exists resp,
        response_of
          (trace (run Reference.world
                    (@requestListener Reference.lib "127.0.0.1" 2221
                       Reference.dev_request)
                    Reference.idle)) = Some resp
        /\ resp_status resp = 200.
Proof.
  exists {| pathname := "/foo/bar"; searchParams := [("dev", "1")] |}.
  split; [reflexivity|]. split; [reflexivity|].
  destruct (@dev_request_bootstrap Reference.lib _ Reference.world
              Reference.idle "127.0.0.1" 2221 Reference.dev_request
              {| pathname := "/foo/bar"; searchParams := [("dev", "1")] |}
              eq_refl eq_refl)
    as (_ & resp & R & S & _).
  exists resp. exact (conj R S).
Defined.

(** C6: on a request that has the [dev] parameter the listener makes no
    call at all to the internal server, whatever the outside is: its run
    consists of the two writes on [res]. *)
Theorem dev_request_stays_local (lib : NodeLib) (W : Type) (world : World W)
        (w : W) (host : string) (port : Z) (req : IncomingRequest) (u : URL) :
  parse_target req = Ok u ->
  searchParams_has "dev" u = true ->
  let r := run world (requestListener host port req) w in
  contacts_internal (trace r) = false
  /\ trace r
     = [ EvOut (ResWriteHead 200
                  [ ("content-type", HStr "application/javascript");
                    ("access-control-allow-origin", HStr "*") ]);
         EvOut (ResEnd (templateForPathname (pathname u))) ]
  /\ snd r = w.
Proof.
  intros P D r. subst r.
  rewrite (requestListener_dev host port req P D).
  repeat split.
Qed.

Lemma dev_request_stays_local_witness :
  @parse_target Reference.lib Reference.dev_request
  = Ok {| pathname := "/foo/bar"; searchParams := [("dev", "1")] |}
  /\ contacts_internal
       (trace (run Reference.world
                 (@requestListener Reference.lib "127.0.0.1" 2221
                    Reference.dev_request)
                 Reference.idle)) = false.
Proof.
  split; [reflexivity|].
  apply (@dev_request_stays_local Reference.lib _ Reference.world
           Reference.idle "127.0.0.1" 2221 Reference.dev_request
           {| pathname := "/foo/bar"; searchParams := [("dev", "1")] |}
           eq_refl eq_refl).
Defined.





(** ** Bundle Orchestrator *)

(** The run of [bundle] once the glob patterns are expanded: the
    announcement, the build, and on a rejected build the report and the
    exit. *)
Lemma run_bundle (lib : NodeLib) (W : Type) (world : World W) (w w1 : W)
      (glob : list string) (preact : bool) (outdir : string)
      (entries : list string) :
  fastGlob world glob w = (Ok entries, w1) ->
  run world (bundle glob preact outdir) w
  = let announce :=
      ConsoleLog ("ESBuild bundling " ++ printLocation_of glob ++ " into "
                  ++ underline outdir ++ " directory") in
    let build := EsbuildBuild (bundleConfig entries outdir preact) in
    match esbuild_build world (bundleConfig entries outdir preact) w1 with
    | (Ok done, w2) =>
        (Returns done,
         [ EvCall (FastGlob glob) (Ok entries); EvOut announce;
           EvCall build (Ok done) ],
         w2)
    | (Err err, w2) =>
        (Exits 1,
         [ EvCall (FastGlob glob) (Ok entries); EvOut announce;
           EvCall build (Err err);
           EvOut (ConsoleError "Error occurred during bundling" err) ],
         w2)
    end.
Proof.
  intros G. unfold bundle. cbn. rewrite G. cbn.
  destruct (esbuild_build world _ w1) as [[done|err] w2]; reflexivity.
Qed.

(** C5: when the bundler rejects the build, [bundle] reports the error on
    the error console and ends the process with exit status 1; when the
    build succeeds, [bundle] returns, with no value and without a report
    or an exit. *)
Theorem bundle_fail_fast (lib : NodeLib) (W : Type) (world : World W) (w w1 : W)
        (glob : list string) (preact : bool) (outdir : string)
        (entries : list string) :
  fastGlob world glob w = (Ok entries, w1) ->
  let r := run world (bundle glob preact outdir) w in
  (forall err w2,
      esbuild_build world (bundleConfig entries outdir preact) w1 = (Err err, w2) ->
      outcome r = Exits 1
      /\ 1 <> 0
      /\ reports_error err (trace r) = true
      /\ List.last (trace r) (EvOut (ConsoleLog EmptyString))
         = EvOut (ConsoleError "Error occurred during bundling" err))
  /\ (forall w2,
         esbuild_build world (bundleConfig entries outdir preact) w1 = (Ok tt, w2) ->
         outcome r = Returns tt
         /\ forall err, reports_error err (trace r) = false).
Proof.
  intros G r. subst r.
  rewrite (@run_bundle lib W world w w1 glob preact outdir entries G). split.
  - intros err w2 B. rewrite B. cbn.
    rewrite String.eqb_refl. repeat split. lia.
  - intros w2 B. rewrite B. cbn. split; reflexivity.
Qed.

Lemma bundle_fail_fast_witness :
  fastGlob Reference.world ["src/*.ts"] Reference.broken
  = (Ok ["src/main.ts"], Reference.broken)
  /\ outcome (run Reference.world
                (@bundle Reference.lib ["src/*.ts"] false "dist")
                Reference.broken) = Exits 1
  /\ reports_error "Build failed with 1 error"
       (trace (run Reference.world
                 (@bundle Reference.lib ["src/*.ts"] false "dist")
                 Reference.broken)) = true.
Proof.
  split; [reflexivity|].
  destruct (@bundle_fail_fast Reference.lib _ Reference.world
              Reference.broken Reference.broken ["src/*.ts"] false "dist"
              ["src/main.ts"] eq_refl) as [F _].
  destruct (F "Build failed with 1 error" Reference.broken eq_refl)
    as (E & _ & R & _).
  exact (conj E R).
Defined.

(** ** Dev Proxy Server: startup *)

Section Startup.

Context {lib : NodeLib} {W : Type} (world : World W).
Variables (w w1 w2 : W) (p1 p2 : Z).
Hypothesis public_answer : getPort world 2222 w = (p1, w1).
Hypothesis internal_answer : getPort world 2221 w1 = (p2, w2).

Ltac run_start :=
  unfold serve_and_listen, port_requests, start;
  cbn -[esbuildConfig Z_to_string String.append];
  rewrite public_answer;
  cbn -[esbuildConfig Z_to_string String.append];
  rewrite internal_answer;
  cbn -[esbuildConfig Z_to_string String.append].

(** Directory mode: the directory is listed and filtered. *)
Lemma run_start_dir (d : string) (ext glob : option (list string))
      (preact : bool) :
  d <> EmptyString ->
  run world (start (Some d) ext glob preact) w
  = let listed := FsReaddir (path_join process_cwd d) in
    match readdir world (path_join process_cwd d) w2 with
    | (Ok files, w3) =>
        serve_and_listen world p1 p2 preact (EvCall listed (Ok files))
          (directory_entries d ext files)
          (underline (path_join process_cwd d)) w3
    | (Err e, w3) => (Throws e, (port_requests p1 p2 ++ [EvCall listed (Err e)])%list, w3)
    end.
Proof.
  intros N. destruct d as [|c d]; [contradiction|].
  run_start.
  destruct (readdir world _ w2) as [[files|e] w3];
    cbn -[esbuildConfig Z_to_string String.append]; [|reflexivity].
  unfold directory_entries.
  destruct (esbuild_serve world _ _ w3) as [[[h p]|e] w4]; reflexivity.
Qed.

(** Pattern mode: the patterns are expanded. *)
Lemma run_start_glob (dir : option string) (ext : option (list string))
      (glob : list string) (preact : bool) :
  truthy dir = None ->
  run world (start dir ext (Some glob) preact) w
  = match fastGlob world glob w2 with
    | (Ok entries, w3) =>
        serve_and_listen world p1 p2 preact (EvCall (FastGlob glob) (Ok entries))
          entries (printLocation_of glob) w3
    | (Err e, w3) =>
        (Throws e, (port_requests p1 p2 ++ [EvCall (FastGlob glob) (Err e)])%list, w3)
    end.
Proof.
  intros T. run_start. rewrite T.
  cbn -[esbuildConfig Z_to_string String.append].
  destruct (fastGlob world glob w2) as [[entries|e] w3];
    cbn -[esbuildConfig Z_to_string String.append]; [|reflexivity].
  destruct (esbuild_serve world _ _ w3) as [[[h p]|e] w4]; reflexivity.
Qed.

(** Neither a directory nor patterns: the expansion is called without
    patterns, and whatever it answers the run throws. *)
Lemma run_start_nothing (dir : option string) (ext : option (list string))
      (preact : bool) :
  truthy dir = None ->
  run world (start dir ext None preact) w
  = match fastGlob_undefined world w2 with
    | (Ok entries, w3) =>
        (Throws "TypeError: Cannot read properties of undefined (reading 'map')",
         (port_requests p1 p2 ++ [EvCall FastGlobUndefined (Ok entries)])%list,
         w3)
    | (Err e, w3) =>
        (Throws e,
         (port_requests p1 p2 ++ [EvCall FastGlobUndefined (Err e)])%list, w3)
    end.
Proof.
  intros T. run_start. rewrite T.
  cbn -[esbuildConfig Z_to_string String.append].
  destruct (fastGlob_undefined world w2) as [[entries|e] w3]; reflexivity.
Qed.

End Startup.

Lemma truthy_cases (dir : option string) :
  (exists d, dir = Some d /\ d <> EmptyString) \/ truthy dir = None.
Proof.
  destruct dir as [[|c d]|]; [right|left|right]; try reflexivity.
  exists (String c d). split; [reflexivity|discriminate].
Qed.

(** C10: every run of [start] asks the port-selection collaborator for
    2222 first and for 2221 second, and for nothing else; a run that gets
    as far as binding the listener binds it, once, to the port obtained
    for 2222, which is the session's public port; a run that throws
    before (entry points not resolved, bundler not started) binds none. *)
Theorem start_port_requests (lib : NodeLib) (W : Type) (world : World W) (w : W)
        (dir : option string) (ext glob : option (list string)) (preact : bool) :
  let r := run world (start dir ext glob preact) w in
  let public_answer := getPort world 2222 w in
  let internal_answer := getPort world 2221 (snd public_answer) in
  ports_requested (trace r) = [2222; 2221]
  /\ List.firstn 2 (trace r)
     = [ EvCall (GetPort 2222) (Ok (fst public_answer));
         EvCall (GetPort 2221) (Ok (fst internal_answer)) ]
  /\ match outcome r with
     | Returns s =>
         ports_listened (trace r) = [fst public_answer]
         /\ publicPort s = fst public_answer
         /\ requestedInternalPort s = fst internal_answer
     | Throws _ => ports_listened (trace r) = []
     | Exits _ => False
     end.
Proof.
  intros r public_answer internal_answer. subst r public_answer internal_answer.
  destruct (getPort world 2222 w) as [p1 w1] eqn:G1. cbn [fst snd].
  destruct (getPort world 2221 w1) as [p2 w2] eqn:G2. cbn [fst snd].
  destruct (truthy_cases dir) as [(d & -> & N)|T].
  - rewrite (@run_start_dir _ _ world _ _ _ _ _ G1 G2 d ext glob preact N). cbv zeta.
    destruct (readdir world _ w2) as [[files|e] w3]; [|repeat split].
    unfold serve_and_listen.
    destruct (esbuild_serve world _ _ w3) as [[served|e] w4]; repeat split.
  - destruct glob as [g|].
    + rewrite (@run_start_glob _ _ world _ _ _ _ _ G1 G2 dir ext g preact T).
      destruct (fastGlob world g w2) as [[entries|e] w3]; [|repeat split].
      unfold serve_and_listen.
      destruct (esbuild_serve world _ _ w3) as [[served|e] w4]; repeat split.
    + rewrite (@run_start_nothing _ _ world _ _ _ _ _ G1 G2 dir ext preact T).
      destruct (fastGlob_undefined world w2) as [[entries|e] w3]; repeat split.
Qed.

(** A run of [start] that binds the listener, on the preferred port. *)
Example start_listens_on_2222 :
  let r := run Reference.world
             (@start Reference.lib None None (Some ["plugins/*.ts"]) false)
             Reference.idle in
  ports_requested (trace r) = [2222; 2221]
  /\ ports_listened (trace r) = [2222]
  /\ exists s, outcome r = Returns s /\ publicPort s = 2222 /\ internalPort s = 2221.
Proof.
  cbv zeta. split; [reflexivity|]. split; [reflexivity|].
  eexists. split; [reflexivity|]. split; reflexivity.
Qed.

(** The cases of a run of [start], after its two port requests [G1] and
    [G2]: directory mode (listing fails, bundler fails, bundler serves),
    pattern mode (expansion fails, bundler fails, bundler serves), and
    neither (the expansion without patterns answers, or fails). *)
Ltac start_cases world G1 G2 dir ext glob preact :=
  let d := fresh "d" in
  let N := fresh "N" in
  let T := fresh "T" in
  let g := fresh "g" in
  let files := fresh "files" in
  let entries := fresh "entries" in
  let served := fresh "served" in
  let e := fresh "e" in
  let w3 := fresh "w3" in
  let w4 := fresh "w4" in
  let L := fresh "L" in
  let S := fresh "S" in
  destruct (truthy_cases dir) as [(d & -> & N)|T];
  [ rewrite (@run_start_dir _ _ world _ _ _ _ _ G1 G2 d ext glob preact N);
    cbv zeta;
    match goal with
    | |- context [readdir world ?p ?w2] =>
        destruct (readdir world p w2) as [[files|e] w3] eqn:L
    end;
    [ unfold serve_and_listen;
      match goal with
      | |- context [esbuild_serve world ?so ?bo w3] =>
          destruct (esbuild_serve world so bo w3) as [[served|e] w4] eqn:S
      end
    | ]
  | destruct glob as [g|];
    [ rewrite (@run_start_glob _ _ world _ _ _ _ _ G1 G2 dir ext g preact T);
      match goal with
      | |- context [fastGlob world g ?w2] =>
          destruct (fastGlob world g w2) as [[entries|e] w3] eqn:L
      end;
      [ unfold serve_and_listen;
        match goal with
        | |- context [esbuild_serve world ?so ?bo w3] =>
            destruct (esbuild_serve world so bo w3) as [[served|e] w4] eqn:S
        end
      | ]
    | rewrite (@run_start_nothing _ _ world _ _ _ _ _ G1 G2 dir ext preact T);
      match goal with
      | |- context [fastGlob_undefined world ?w2] =>
          destruct (fastGlob_undefined world w2) as [[entries|e] w3] eqn:L
      end ] ].




(** With a port selection that answers the same port twice, the bundler
    binds it and the bind of the listener fails: no startup has the two
    ports bound and equal. *)
Example repeated_port_cannot_be_bound :
  let r := run Scenario.forgetful
             (@start Reference.lib (Some "plugins") None None false)
             Reference.idle in
  exists s,
    outcome r = Returns s
    /\ publicPort s = 3000
    /\ internalPort s = 3000
    /\ outcome (run Scenario.forgetful (listening s) (snd r))
       = Throws "listen EADDRINUSE: address already in use"
    /\ binds (trace (run Scenario.forgetful (listening s) (snd r))) = [].
Proof.
  cbv zeta. eexists. repeat split.
Qed.

(** With a directory given, [start] is the same program whatever the
    pattern option is. *)
Lemma start_dir_ignores_glob (lib : NodeLib) (d : string)
      (ext glob glob' : option (list string)) (preact : bool) :
  d <> EmptyString ->
  start (Some d) ext glob preact = start (Some d) ext glob' preact.
Proof.
  intros N. destruct d as [|c d]; [contradiction|]. reflexivity.
Qed.

(** With a directory given, no run of [start] expands a pattern. *)
Lemma start_dir_never_globs (lib : NodeLib) (W : Type) (world : World W) (w : W)
      (d : string) (ext glob : option (list string)) (preact : bool) :
  d <> EmptyString ->
  uses_glob (trace (run world (start (Some d) ext glob preact) w)) = false.
Proof.
  intros N.
  destruct (getPort world 2222 w) as [p1 w1] eqn:G1.
  destruct (getPort world 2221 w1) as [p2 w2] eqn:G2.
  rewrite (@run_start_dir _ _ world _ _ _ _ _ G1 G2 d ext glob preact N).
  cbv zeta.
  destruct (readdir world _ w2) as [[files|e] w3]; [|reflexivity].
  unfold serve_and_listen.
  destruct (esbuild_serve world _ _ w3) as [[served|e] w4]; reflexivity.
Qed.

(** C8: given both a directory and patterns, [start] takes the directory
    mode: it lists the directory, keeps the files whose extension is in
    the allow-list ([.js] and [.ts] when no list is supplied), hands
    these to the bundler as entry points, and does not look at the
    patterns. *)
Theorem directory_mode_wins (lib : NodeLib) (W : Type) (world : World W)
        (w w1 w2 w3 w4 : W) (p1 p2 : Z) (d : string)
        (ext : option (list string)) (glob : list string) (preact : bool)
        (files : list string) (served : ServeResult) :
  d <> EmptyString ->
  getPort world 2222 w = (p1, w1) ->
  getPort world 2221 w1 = (p2, w2) ->
  readdir world (path_join process_cwd d) w2 = (Ok files, w3) ->
  esbuild_serve world {| serve_port := p2 |}
    (esbuildConfig (directory_entries d ext files) preact) w3 = (Ok served, w4) ->
  let r := run world (start (Some d) ext (Some glob) preact) w in
  let allow := match ext with Some e => e | None => [".js"; ".ts"] end in
  let kept :=
    List.map (path_join d)
      (List.filter (fun f => Str.mem (path_extname f) allow) files) in
  (exists s, outcome r = Returns s /\ sessionEntryPoints s = kept)
  /\ List.In (EvCall (FsReaddir (path_join process_cwd d)) (Ok files)) (trace r)
  /\ List.In (EvCall (EsbuildServe {| serve_port := p2 |}
                        (esbuildConfig kept preact)) (Ok served)) (trace r)
  /\ uses_glob (trace r) = false
  /\ (forall other, start (Some d) ext other preact
                    = start (Some d) ext (Some glob) preact).
Proof.
  intros N G1 G2 L S r allow kept.
  assert (K : kept = directory_entries d ext files) by reflexivity.
  split; [|split; [|split; [|split]]].
  - subst r.
    rewrite (@run_start_dir _ _ world _ _ _ _ _ G1 G2 d ext (Some glob) preact N).
    cbv zeta. rewrite L. unfold serve_and_listen. rewrite S.
    eexists. split; [reflexivity|]. symmetry. exact K.
  - subst r.
    rewrite (@run_start_dir _ _ world _ _ _ _ _ G1 G2 d ext (Some glob) preact N).
    cbv zeta. rewrite L. unfold serve_and_listen. rewrite S.
    cbn. right. right. left. reflexivity.
  - subst r.
    rewrite (@run_start_dir _ _ world _ _ _ _ _ G1 G2 d ext (Some glob) preact N).
    cbv zeta. rewrite L. unfold serve_and_listen. rewrite S.
    rewrite K. cbn. right. right. right. left. reflexivity.
  - apply start_dir_never_globs. exact N.
  - intros other. apply start_dir_ignores_glob. exact N.
Qed.

Lemma directory_mode_wins_witness :
  let r := run Reference.world
             (@start Reference.lib (Some "plugins") None (Some ["src/*.ts"]) false)
             Reference.idle in
  readdir Reference.world "/srv/plugins/plugins" Reference.idle
  = (Ok ["a.js"; "b.ts"; "notes.md"; ".eslintrc"; "c.test.js"], Reference.idle)
  /\ (exists s,
        outcome r = Returns s
        /\ sessionEntryPoints s
           = ["plugins/a.js"; "plugins/b.ts"; "plugins/c.test.js"])
  /\ uses_glob (trace r) = false.
Proof.
  cbv zeta. split; [reflexivity|].
  destruct (@directory_mode_wins Reference.lib _ Reference.world
              Reference.idle (Reference.hand 2222 Reference.idle)
              Scenario.asked Scenario.asked Scenario.serving 2222 2221
              "plugins" None ["src/*.ts"] false
              ["a.js"; "b.ts"; "notes.md"; ".eslintrc"; "c.test.js"]
              {| host := "127.0.0.1"; port := 2221 |}
              ltac:(discriminate) eq_refl eq_refl eq_refl eq_refl)
    as (E & _ & _ & G & _).
  exact (conj E G).
Defined.

(** * Further properties *)

(** ** The rewrite rules as a whole *)

#[local] Opaque Ascii.eqb.

(** The filter [/^react$/] accepts the specifier [react] and no other. *)
Lemma re_react_exact (s : string) :
  Regex.test re_react s = String.eqb "react" s.
Proof.
  unfold re_react. rewrite test_anchored.
  unfold Regex.matches_at. cbn.
  repeat (first [reflexivity | next_char]).
Qed.

(** The filter [/^react-dom$/] accepts [react-dom] and no other. *)
Lemma re_react_dom_exact (s : string) :
  Regex.test re_react_dom s = String.eqb "react-dom" s.
Proof.
  unfold re_react_dom. rewrite test_anchored.
  unfold Regex.matches_at. cbn.
  repeat (first [reflexivity | next_char]).
Qed.

(** The filter [/^react-dom\/test-utils$/] accepts
    [react-dom/test-utils] and no other. *)
Lemma re_react_dom_test_utils_exact (s : string) :
  Regex.test re_react_dom_test_utils s = String.eqb "react-dom/test-utils" s.
Proof.
  unfold re_react_dom_test_utils. rewrite test_anchored.
  unfold Regex.matches_at. cbn.
  repeat (first [reflexivity | next_char]).
Qed.

#[local] Transparent Ascii.eqb.

(** The dispatch over the registered callbacks, with each filter read as
    the test on strings it stands for. *)
Lemma classify_cases (lib : NodeLib) (preact : bool) (specifier : string) :
  classify preact specifier
  = let answer r :=
      match r with
      | Ok p => Redirect p
      | Err e => ResolveFailed e
      end in
    if (Str.startsWith "http://" specifier
        || Str.startsWith "https://" specifier)%bool
    then Externalize specifier
    else if preact then
      if String.eqb "react-dom/test-utils" specifier
      then answer (require_resolve "preact/test-utils")
      else if String.eqb "react-dom" specifier
      then answer (require_resolve "preact/compat")
      else if String.eqb "react" specifier
      then answer (require_resolve "preact/compat")
      else Unchanged
    else Unchanged.
Proof.
  unfold classify, getExtraConfig.
  destruct preact;
    cbn [spread plugins hooks_of flat_map httpExternalResolver preactResolver
         setup app emptyOptions dispatch filter callback];
    rewrite re_http_prefix;
    destruct (Str.startsWith "http://" specifier
              || Str.startsWith "https://" specifier)%bool;
    try reflexivity.
  rewrite re_react_dom_test_utils_exact, re_react_dom_exact, re_react_exact.
  unfold resolved. cbv zeta.
  destruct (String.eqb "react-dom/test-utils" specifier).
  { destruct (require_resolve "preact/test-utils"); reflexivity. }
  destruct (String.eqb "react-dom" specifier).
  { destruct (require_resolve "preact/compat"); reflexivity. }
  destruct (String.eqb "react" specifier).
  { destruct (require_resolve "preact/compat"); reflexivity. }
  reflexivity.
Qed.

(** X1: the plugins of [getExtraConfig(preact)], dispatched in
    registration order, classify every specifier as the table [policy]
    does: network specifiers externalized as written, the three React
    names redirected in alias mode (or failing with module resolution),
    everything else unchanged. *)
Theorem classify_policy (lib : NodeLib) (preact : bool) (specifier : string) :
  classify preact specifier = policy preact specifier.
Proof.
  rewrite classify_cases. unfold policy. cbv zeta.
  destruct (Str.startsWith "http://" specifier
            || Str.startsWith "https://" specifier)%bool; [reflexivity|].
  destruct preact; cbn [negb]; [|reflexivity].
  destruct (String.eqb "react-dom/test-utils" specifier); [reflexivity|].
  destruct (String.eqb "react-dom" specifier); reflexivity.
Qed.

(** X2: alias mode changes the classification of the three React names
    only: any other specifier is classified the same with and without
    it, whether or not the alias library can be resolved. *)
Theorem alias_mode_touches_three_names (lib : NodeLib) (specifier : string) :
  specifier <> "react" ->
  specifier <> "react-dom" ->
  specifier <> "react-dom/test-utils" ->
  classify true specifier = classify false specifier.
Proof.
  intros N1 N2 N3. rewrite !classify_cases. cbv zeta.
  destruct (Str.startsWith "http://" specifier
            || Str.startsWith "https://" specifier)%bool; [reflexivity|].
  destruct (String.eqb_spec "react-dom/test-utils" specifier) as [E|_];
    [now subst specifier|].
  destruct (String.eqb_spec "react-dom" specifier) as [E|_];
    [now subst specifier|].
  destruct (String.eqb_spec "react" specifier) as [E|_];
    [now subst specifier|].
  reflexivity.
Qed.

Lemma alias_mode_touches_three_names_witness :
  @classify Reference.lib true "react/jsx-runtime" = Unchanged
  /\ @classify Reference.lib true "react/jsx-runtime"
     = @classify Reference.lib false "react/jsx-runtime".
Proof.
  split; [reflexivity|].
  apply (@alias_mode_touches_three_names Reference.lib "react/jsx-runtime");
    discriminate.
Defined.

(** X3: what a classification tells about the specifier.  An externalized
    path is the specifier itself, and it begins with [http://] or
    [https://]; a redirect happens in alias mode only, for one of the
    three React names, to what module resolution answered; a failure
    happens in alias mode only, for one of the three names; an unchanged
    specifier is not a network one. *)
Theorem classification_sound (lib : NodeLib) (preact : bool) (specifier : string) :
  let network :=
    (Str.startsWith "http://" specifier
     || Str.startsWith "https://" specifier)%bool in
  let react_name :=
    specifier = "react-dom/test-utils" \/ specifier = "react-dom"
    \/ specifier = "react" in
  match classify preact specifier with
  | Externalize p => p = specifier /\ network = true
  | Redirect target =>
      preact = true /\ network = false /\ react_name
      /\ (require_resolve "preact/test-utils" = Ok target
          \/ require_resolve "preact/compat" = Ok target)
  | ResolveFailed _ => preact = true /\ network = false /\ react_name
  | Unchanged => network = false
  end.
Proof.
  cbv zeta. rewrite classify_cases. cbv zeta.
  destruct (Str.startsWith "http://" specifier
            || Str.startsWith "https://" specifier)%bool; [now split|].
  destruct preact; [|reflexivity].
  destruct (String.eqb_spec "react-dom/test-utils" specifier) as [E|_].
  { destruct (require_resolve "preact/test-utils") eqn:R; auto 7. }
  destruct (String.eqb_spec "react-dom" specifier) as [E|_].
  { destruct (require_resolve "preact/compat") eqn:R; auto 7. }
  destruct (String.eqb_spec "react" specifier) as [E|_].
  { destruct (require_resolve "preact/compat") eqn:R; auto 8. }
  reflexivity.
Qed.

(** ** The options handed to the bundler *)

(** X4: [bundle] and [start] hand the bundler the same bundling options:
    the caller's entry points survive both spreads, the format, target,
    plugins and JSX names agree, and the two differ only in that the
    build has the output directory and no source map setting, the serve
    a source map and no output directory.  The JSX names are overridden
    exactly in alias mode, where the alias plugin follows the network
    one. *)
Theorem build_and_serve_options_agree (lib : NodeLib) (entries : list string)
        (out : string) (preact : bool) :
  let b := bundleConfig entries out preact in
  let s := esbuildConfig entries preact in
  (entryPoints b = Some entries /\ entryPoints s = Some entries)
  /\ (outdir b = Some out /\ outdir s = None)
  /\ (sourcemap b = None /\ sourcemap s = Some true)
  /\ (bundle_opt s = bundle_opt b /\ bundle_opt b = Some true)
  /\ (format s = format b /\ format b = Some "esm")
  /\ (target s = target b /\ target b = Some ["es2020"])
  /\ (plugins s = plugins b
      /\ option_map (List.map name) (plugins b)
         = Some (if preact then ["http-external"; "preact"]
                 else ["http-external"]))
  /\ (jsxFactory s = jsxFactory b
      /\ jsxFactory b = if preact then Some "h" else None)
  /\ (jsxFragment s = jsxFragment b
      /\ jsxFragment b = if preact then Some "Fragment" else None).
Proof.
  destruct preact; repeat split.
Qed.

(** ** The request listener: failures and what every response shares *)

Lemma run_requestListener_invalid (lib : NodeLib) (W : Type) (world : World W)
      (w : W) (host : string) (port : Z) (req : IncomingRequest) (e : Error) :
  parse_target req = Err e ->
  run world (requestListener host port req) w = (Throws e, [], w).
Proof.
  intros P. unfold requestListener. rewrite P. reflexivity.
Qed.

(** X5: when the URL constructor rejects the request target against the
    [Host] header, the listener throws that error before anything else:
    nothing is written on [res], the internal server is not contacted,
    and this holds even if the target carries a [dev] parameter. *)
Theorem invalid_target_throws (lib : NodeLib) (W : Type) (world : World W)
        (w : W) (host : string) (port : Z) (req : IncomingRequest) (e : Error) :
  parse_target req = Err e ->
  let r := run world (requestListener host port req) w in
  outcome r = Throws e
  /\ response_of (trace r) = None
  /\ writes_on_res (trace r) = false
  /\ contacts_internal (trace r) = false
  /\ snd r = w.
Proof.
  intros P r. subst r.
  rewrite (@run_requestListener_invalid lib W world w host port req e P).
  repeat split.
Qed.

Lemma invalid_target_throws_witness :
  @parse_target Reference.lib Scenario.empty_host = Err "TypeError: Invalid URL"
  /\ Str.includes "?dev" (req_url Scenario.empty_host) = true
  /\ writes_on_res
       (trace (run Reference.world
                 (@requestListener Reference.lib "127.0.0.1" 2221
                    Scenario.empty_host)
                 Reference.idle)) = false.
Proof.
  split; [reflexivity|]. split; [reflexivity|].
  apply (@invalid_target_throws Reference.lib _ Reference.world
           Reference.idle "127.0.0.1" 2221 Scenario.empty_host
           "TypeError: Invalid URL" eq_refl).
Defined.



(** X7: when the request to the internal server fails before its
    response has started (the error answer of [http.request]: refused, or
    reset before the head), the callback that writes on [res] is never
    called: the error is thrown and neither a head nor a body is
    written. *)
Theorem forwarding_failure_writes_nothing (lib : NodeLib) (W : Type)
        (world : World W) (w w' : W) (host : string) (port : Z)
        (req : IncomingRequest) (u : URL) (e : Error) :
  parse_target req = Ok u ->
  searchParams_has "dev" u = false ->
  http_request world (forward_options host port req) (req_body req) w
  = (Err e, w') ->
  let r := run world (requestListener host port req) w in
  outcome r = Throws e
  /\ response_of (trace r) = None
  /\ writes_on_res (trace r) = false.
Proof.
  intros P D H r. subst r.
  rewrite (run_requestListener_forward world host port req P w D).
  cbv zeta. rewrite H. repeat split.
Qed.

Lemma forwarding_failure_writes_nothing_witness :
  http_request Reference.world
    (forward_options "127.0.0.1" 2221 Scenario.upload)
    (req_body Scenario.upload) Scenario.offline
  = (Err "connect ECONNREFUSED 127.0.0.1:2221", Scenario.offline)
  /\ outcome (run Reference.world
                (@requestListener Reference.lib "127.0.0.1" 2221 Scenario.upload)
                Scenario.offline)
     = Throws "connect ECONNREFUSED 127.0.0.1:2221".
Proof.
  split; [reflexivity|].
  apply (@forwarding_failure_writes_nothing Reference.lib _ Reference.world
           Scenario.offline Scenario.offline "127.0.0.1" 2221 Scenario.upload
           {| pathname := "/esbuild"; searchParams := [("x", "1"); ("y", "2")] |}
           "connect ECONNREFUSED 127.0.0.1:2221" eq_refl eq_refl eq_refl).
Defined.

(** X8: whatever the request and whatever the outside, a response the
    listener writes carries [access-control-allow-origin: *]: on the
    bootstrap branch and on the forwarding branch alike. *)
Theorem every_response_allows_any_origin (lib : NodeLib) (W : Type)
        (world : World W) (w : W) (host : string) (port : Z)
        (req : IncomingRequest) (resp : Response) :
  response_of (trace (run world (requestListener host port req) w)) = Some resp ->
  Obj.get "access-control-allow-origin" (resp_headers resp) = Some (HStr "*").
Proof.
  destruct (parse_target req) as [u|e] eqn:P.
  - destruct (searchParams_has "dev" u) eqn:D.
    + rewrite (requestListener_dev host port req P D). cbn.
      intros H. inversion H. reflexivity.
    + rewrite (run_requestListener_forward world host port req P w D).
      cbv zeta.
      destruct (http_request world _ _ w) as [[proxyRes|e] w']; cbn;
        intros H; inversion H. cbn. apply get_set_same.
  - rewrite (@run_requestListener_invalid lib W world w host port req e P).
    cbn. discriminate.
Qed.

Lemma every_response_allows_any_origin_witness :
  exists resp,
    response_of
      (trace (run Reference.world
                (@requestListener Reference.lib "127.0.0.1" 2221
                   Reference.asset_request)
                Reference.guarded)) = Some resp
    /\ Obj.get "access-control-allow-origin" (resp_headers resp)
       = Some (HStr "*").
Proof.
  eexists. split; [reflexivity|].
  apply (@every_response_allows_any_origin Reference.lib _ Reference.world
           Reference.guarded "127.0.0.1" 2221 Reference.asset_request).
  reflexivity.
Defined.



Lemma keys_set_subset {V} (k k0 : string) (v : V) (o : Obj.t V) :
  List.In k0 (Obj.keys (Obj.set k v o)) -> k0 = k \/ List.In k0 (Obj.keys o).
Proof.
  unfold Obj.keys. induction o as [|[k' v'] o IH]; cbn.
  - intros [H|[]]. now left.
  - destruct (String.eqb k k') eqn:E; cbn.
    + intros H. now right.
    + intros [H|H]; [right; now left|].
      destruct (IH H) as [H'|H']; [now left|right; now right].
Qed.

Lemma keys_set_NoDup {V} (k : string) (v : V) (o : Obj.t V) :
  List.NoDup (Obj.keys o) -> List.NoDup (Obj.keys (Obj.set k v o)).
Proof.
  induction o as [|[k' v'] o IH]; cbn; intros N.
  - constructor; [intros []|constructor].
  - inversion N as [|? ? Hn Hd]; subst.
    destruct (String.eqb k k') eqn:E; cbn.
    + constructor; assumption.
    + constructor; [|now apply IH].
      intros H. apply keys_set_subset in H as [H|H]; [|contradiction].
      subst k'. rewrite String.eqb_refl in E. discriminate.
Qed.

(** X10: forwarding keeps the header object well formed and never makes
    it carry the cross-origin header twice: when the internal response
    has one entry per header name, so has the proxied one, the names it
    had are all still there in their order, and at most one name is
    new. *)
Theorem forwarded_headers_well_formed (lib : NodeLib) (W : Type)
        (world : World W) (w w' : W) (host : string) (port : Z)
        (req : IncomingRequest) (u : URL) (internal : IncomingMessage) :
  parse_target req = Ok u ->
  searchParams_has "dev" u = false ->
  http_request world (forward_options host port req) (req_body req) w
  = (Ok internal, w') ->
  List.NoDup (Obj.keys (headers internal)) ->
  exists resp,
    response_of (trace (run world (requestListener host port req) w)) = Some resp
    /\ List.NoDup (Obj.keys (resp_headers resp))
    /\ (Obj.keys (resp_headers resp) = Obj.keys (headers internal)
        \/ Obj.keys (resp_headers resp)
           = (Obj.keys (headers internal) ++ ["access-control-allow-origin"])%list).
Proof.
  intros P D H N.
  rewrite (run_requestListener_forward world host port req P w D).
  cbv zeta. rewrite H. eexists. split; [reflexivity|].
  cbn [resp_headers]. split; [now apply keys_set_NoDup|].
  destruct (Obj.has "access-control-allow-origin" (headers internal)) eqn:A.
  - left. now apply keys_set_present.
  - right. rewrite (set_absent _ (HStr "*") _ A).
    unfold Obj.keys. rewrite List.map_app. reflexivity.
Qed.

Lemma forwarded_headers_well_formed_witness :
  exists resp,
    response_of
      (trace (run Reference.world
                (@requestListener Reference.lib "127.0.0.1" 2221
                   Reference.asset_request)
                Reference.guarded)) = Some resp
    /\ Obj.keys (resp_headers resp)
       = ["content-type"; "access-control-allow-origin"].
Proof.
  destruct (@forwarded_headers_well_formed Reference.lib _ Reference.world
              Reference.guarded Reference.guarded "127.0.0.1" 2221
              Reference.asset_request
              {| pathname := "/PluginTemplate.js";
                 searchParams := [("1700000000000", EmptyString)] |}
              {| statusCode := 200;
                 headers :=
                   [("content-type", HStr "application/javascript");
                    ("access-control-allow-origin",
                     HStr "https://plugins.example")];
                 msg_body := "export default class {}" |}
              eq_refl eq_refl eq_refl)
    as (resp & R & _ & _).
  - repeat constructor; cbn; intuition discriminate.
  - exists resp. split; [exact R|].
    cbn in R. inversion R. reflexivity.
Defined.

(** ** The Bundle Orchestrator: what is caught and what is not *)

(** X11: a failure of the pattern expansion is outside the [try]: [bundle]
    throws it as it is, without calling the bundler, without a line on
    either console and without ending the process. *)
Theorem bundle_glob_failure_uncaught (lib : NodeLib) (W : Type)
        (world : World W) (w w1 : W) (glob : list string) (preact : bool)
        (outdir : string) (e : Error) :
  fastGlob world glob w = (Err e, w1) ->
  let r := run world (bundle glob preact outdir) w in
  outcome r = Throws e
  /\ build_attempts (trace r) = O
  /\ writes_on_console (trace r) = false
  /\ reports_error e (trace r) = false
  /\ snd r = w1.
Proof.
  intros G r. subst r. unfold bundle. cbn. rewrite G. repeat split.
Qed.

Lemma bundle_glob_failure_uncaught_witness :
  fastGlob Scenario.unreadable ["src/*.ts"] Reference.idle
  = (Err "EACCES: permission denied, scandir 'src'", Reference.idle)
  /\ outcome (run Scenario.unreadable
                (@bundle Reference.lib ["src/*.ts"] false "dist")
                Reference.idle)
     = Throws "EACCES: permission denied, scandir 'src'".
Proof.
  split; [reflexivity|].
  apply (@bundle_glob_failure_uncaught Reference.lib _ Scenario.unreadable
           Reference.idle Reference.idle ["src/*.ts"] false "dist"
           "EACCES: permission denied, scandir 'src'" eq_refl).
Defined.

(** X12: in every run, [bundle] calls the bundler at most once; it
    returns only after a build, without an error report; it ends the
    process only with status 1, after a build and a report; and what it
    throws is never a build error: it throws only when no build was
    attempted. *)
Theorem bundle_outcomes (lib : NodeLib) (W : Type) (world : World W) (w : W)
        (glob : list string) (preact : bool) (outdir : string) :
  let r := run world (bundle glob preact outdir) w in
  (build_attempts (trace r) <= 1)%nat
  /\ match outcome r with
     | Returns _ =>
         build_attempts (trace r) = 1%nat
         /\ forall e, reports_error e (trace r) = false
     | Exits code =>
         code = 1 /\ build_attempts (trace r) = 1%nat
         /\ exists e, reports_error e (trace r) = true
     | Throws e => build_attempts (trace r) = O
     end.
Proof.
  intros r. subst r.
  destruct (fastGlob world glob w) as [[entries|e] w1] eqn:G.
  - rewrite (@run_bundle lib W world w w1 glob preact outdir entries G).
    cbv zeta.
    destruct (esbuild_build world _ w1) as [[done|err] w2]; cbn.
    + split; [lia|]. split; reflexivity.
    + split; [lia|]. repeat split. exists err.
      now rewrite String.eqb_refl.
  - unfold bundle. cbn. rewrite G. cbn. split; [lia|reflexivity].
Qed.

(** ** Startup: order, failures, the two modes *)

(** X13: in every run of [start] the listener is bound only after the
    bundler has answered: [esbuild.serve] is called at most once, the
    one-shot [esbuild.build] never, and a run that returns has started
    the bundler exactly once. *)
Theorem start_serves_before_listening (lib : NodeLib) (W : Type)
        (world : World W) (w : W)
        (dir : option string) (ext glob : option (list string)) (preact : bool) :
  let r := run world (start dir ext glob preact) w in
  listens_after_serve false (trace r) = true
  /\ build_attempts (trace r) = O
  /\ (serve_attempts (trace r) <= 1)%nat
  /\ (List.length (ports_listened (trace r)) <= serve_attempts (trace r))%nat
  /\ match outcome r with
     | Returns _ => serve_attempts (trace r) = 1%nat
     | _ => ports_listened (trace r) = []
     end.
Proof.
  intros r. subst r.
  destruct (getPort world 2222 w) as [p1 w1] eqn:G1.
  destruct (getPort world 2221 w1) as [p2 w2] eqn:G2.
  start_cases world G1 G2 dir ext glob preact; cbn; repeat split; lia.
Qed.

(** X14: when the entry points cannot be resolved (the directory cannot
    be listed, or the patterns cannot be expanded), [start] throws that
    error after both ports were asked for: the bundler is not started
    and no listener is bound. *)
Theorem start_entry_failure (lib : NodeLib) (W : Type) (world : World W)
        (w w1 w2 w3 : W) (p1 p2 : Z)
        (dir : option string) (ext glob : option (list string)) (preact : bool)
        (e : Error) :
  getPort world 2222 w = (p1, w1) ->
  getPort world 2221 w1 = (p2, w2) ->
  (exists d, dir = Some d /\ d <> EmptyString
             /\ readdir world (path_join process_cwd d) w2 = (Err e, w3))
  \/ (truthy dir = None
      /\ exists g, glob = Some g /\ fastGlob world g w2 = (Err e, w3)) ->
  let r := run world (start dir ext glob preact) w in
  outcome r = Throws e
  /\ ports_requested (trace r) = [2222; 2221]
  /\ serve_attempts (trace r) = O
  /\ ports_listened (trace r) = []
  /\ snd r = w3.
Proof.
  intros G1 G2 [(d & -> & N & L)|(T & g & -> & L)] r; subst r.
  - rewrite (@run_start_dir _ _ world _ _ _ _ _ G1 G2 d ext glob preact N).
    cbv zeta. rewrite L. repeat split.
  - rewrite (@run_start_glob _ _ world _ _ _ _ _ G1 G2 dir ext g preact T).
    rewrite L. repeat split.
Qed.

Lemma start_entry_failure_witness :
  let r := run Reference.world
             (@start Reference.lib (Some "nowhere") None None false)
             Reference.idle in
  readdir Reference.world "/srv/plugins/nowhere" Reference.idle
  = (Err "ENOENT: no such file or directory, scandir '/srv/plugins/nowhere'",
     Reference.idle)
  /\ serve_attempts (trace r) = O
  /\ ports_listened (trace r) = [].
Proof.
  cbv zeta. split; [reflexivity|].
  destruct (@start_entry_failure Reference.lib _ Reference.world
              Reference.idle (Reference.hand 2222 Reference.idle)
              Scenario.asked Scenario.asked
              2222 2221 (Some "nowhere") None None false
              "ENOENT: no such file or directory, scandir '/srv/plugins/nowhere'"
              eq_refl eq_refl)
    as (_ & _ & S & L & _).
  - left. exists "nowhere". split; [reflexivity|]. split; [discriminate|].
    reflexivity.
  - exact (conj S L).
Defined.

(** X15: without a directory, and an empty string counts as none, [start]
    takes the pattern mode: the entry points are what the expansion of
    the patterns answers, in its order; no directory is listed and the
    extension list plays no part. *)
Theorem pattern_mode_entries (lib : NodeLib) (W : Type) (world : World W)
        (w w1 w2 w3 w4 : W) (p1 p2 : Z) (dir : option string)
        (ext : option (list string)) (glob : list string) (preact : bool)
        (entries : list string) (served : ServeResult) :
  dir = None \/ dir = Some EmptyString ->
  getPort world 2222 w = (p1, w1) ->
  getPort world 2221 w1 = (p2, w2) ->
  fastGlob world glob w2 = (Ok entries, w3) ->
  esbuild_serve world {| serve_port := p2 |} (esbuildConfig entries preact) w3
  = (Ok served, w4) ->
  let r := run world (start dir ext (Some glob) preact) w in
  (exists s, outcome r = Returns s /\ sessionEntryPoints s = entries)
  /\ List.In (EvCall (EsbuildServe {| serve_port := p2 |}
                        (esbuildConfig entries preact)) (Ok served)) (trace r)
  /\ lists_directory (trace r) = false
  /\ (forall other, run world (start dir other (Some glob) preact) w = r).
Proof.
  intros D G1 G2 L S r.
  assert (T : truthy dir = None) by (destruct D as [-> | ->]; reflexivity).
  assert (R : forall x,
             run world (start dir x (Some glob) preact) w
             = (Returns (session_of p1 p2 served entries (printLocation_of glob)),
                (port_requests p1 p2
                   ++ EvCall (FastGlob glob) (Ok entries)
                   :: serving_events p1 p2 served entries preact)%list,
                w4)).
  { intros x.
    rewrite (@run_start_glob _ _ world _ _ _ _ _ G1 G2 dir x glob preact T).
    rewrite L. unfold serve_and_listen. rewrite S. reflexivity. }
  subst r. split; [|split; [|split]].
  - rewrite R. eexists. split; reflexivity.
  - rewrite R. cbn. right. right. right. left. reflexivity.
  - rewrite R. reflexivity.
  - intros other. rewrite !R. reflexivity.
Qed.

Lemma pattern_mode_entries_witness :
  let r := run Reference.world
             (@start Reference.lib (Some EmptyString) (Some [".md"])
                (Some ["src/*.ts"]) false)
             Reference.idle in
  (exists s, outcome r = Returns s /\ sessionEntryPoints s = ["src/main.ts"])
  /\ lists_directory (trace r) = false.
Proof.
  destruct (@pattern_mode_entries Reference.lib _ Reference.world
              Reference.idle (Reference.hand 2222 Reference.idle)
              Scenario.asked Scenario.asked Scenario.serving 2222 2221
              (Some EmptyString) (Some [".md"]) ["src/*.ts"] false
              ["src/main.ts"] {| host := "127.0.0.1"; port := 2221 |}
              (or_intror eq_refl) eq_refl eq_refl eq_refl eq_refl)
    as (E & _ & D & _).
  exact (conj E D).
Defined.

Lemma filter_none {A} (f : A -> bool) (l : list A) :
  (forall x, List.In x l -> f x = false) -> List.filter f l = [].
Proof.
  induction l as [|a l IH]; cbn; intros H; [reflexivity|].
  rewrite (H a (or_introl eq_refl)). apply IH.
  intros x Hx. apply H. now right.
Qed.

(** X16: a directory without a file of an allowed extension is no error:
    when no listed name has its extension in the list (an empty
    directory, or an extension list given as the empty array, which is
    kept rather than replaced by the default), [start] starts the bundler
    with no entry point and binds the listener all the same. *)
Theorem start_without_entries (lib : NodeLib) (W : Type) (world : World W)
        (w w1 w2 w3 w4 : W) (p1 p2 : Z) (d : string)
        (ext glob : option (list string)) (preact : bool)
        (files : list string) (served : ServeResult) :
  d <> EmptyString ->
  getPort world 2222 w = (p1, w1) ->
  getPort world 2221 w1 = (p2, w2) ->
  readdir world (path_join process_cwd d) w2 = (Ok files, w3) ->
  (forall f, List.In f files ->
             Str.mem (path_extname f)
               (match ext with Some e => e | None => [".js"; ".ts"] end)
             = false) ->
  esbuild_serve world {| serve_port := p2 |} (esbuildConfig [] preact) w3
  = (Ok served, w4) ->
  let r := run world (start (Some d) ext glob preact) w in
  (exists s, outcome r = Returns s /\ sessionEntryPoints s = [])
  /\ List.In (EvCall (EsbuildServe {| serve_port := p2 |}
                        (esbuildConfig [] preact)) (Ok served)) (trace r)
  /\ ports_listened (trace r) = [p1].
Proof.
  intros N G1 G2 L A S r. subst r.
  rewrite (@run_start_dir _ _ world _ _ _ _ _ G1 G2 d ext glob preact N).
  cbv zeta. rewrite L.
  assert (E : directory_entries d ext files = []).
  { unfold directory_entries. rewrite (filter_none _ _ A). reflexivity. }
  rewrite E. unfold serve_and_listen. rewrite S.
  split; [eexists; split; reflexivity|].
  split; [|reflexivity].
  cbn. right. right. right. left. reflexivity.
Qed.

Lemma start_without_entries_witness :
  let r := run Reference.world
             (@start Reference.lib (Some "plugins") (Some []) None true)
             Reference.idle in
  (exists s, outcome r = Returns s /\ sessionEntryPoints s = [])
  /\ ports_listened (trace r) = [2222].
Proof.
  destruct (@start_without_entries Reference.lib _ Reference.world
              Reference.idle (Reference.hand 2222 Reference.idle)
              Scenario.asked Scenario.asked Scenario.serving 2222 2221
              "plugins" (Some []) None true
              ["a.js"; "b.ts"; "notes.md"; ".eslintrc"; "c.test.js"]
              {| host := "127.0.0.1"; port := 2221 |}
              ltac:(discriminate) eq_refl eq_refl eq_refl
              (fun f _ => eq_refl) eq_refl)
    as (E & _ & P).
  exact (conj E P).
Defined.



(** X18: the two announcements belong to the callback of the [listen]
    call, not to [start]: a run of [start] writes nothing on the console,
    and when it returns its last event is that call, on the session's
    public port.  Once [start] has returned, if the bind is done the
    callback prints the two lines, the first naming the internal port
    that was asked for, whatever port the bundler answered with, the last
    naming the public port; if the bind fails, the error is thrown and
    nothing is printed. *)
Theorem announcements_follow_the_bind (lib : NodeLib) (W : Type)
        (world : World W) (w : W)
        (dir : option string) (ext glob : option (list string)) (preact : bool)
        (s : ServeSession) :
  let r := run world (start dir ext glob preact) w in
  outcome r = Returns s ->
  writes_on_console (trace r) = false
  /\ List.last (trace r) (EvOut (ConsoleLog EmptyString))
     = EvOut (ServerListen (publicPort s))
  /\ forall (W' : Type) (world' : World W') (w' : W'),
      match server_bind world' (publicPort s) w' with
      | (Ok done, w'') =>
          exists location,
            run world' (listening s) w'
            = (Returns tt,
               [ EvCall (ServerBind (publicPort s)) (Ok done);
                 EvOut (ConsoleLog
                          ("ESBuild for " ++ location ++ " on port "
                           ++ underline
                                (Z_to_string (requestedInternalPort s))));
                 EvOut (ConsoleLog
                          ("Development server started on "
                           ++ bold ("http://127.0.0.1:"
                                    ++ Z_to_string (publicPort s) ++ "/"))) ],
               w'')
      | (Err e, w'') =>
          run world' (listening s) w'
          = (Throws e, [EvCall (ServerBind (publicPort s)) (Err e)], w'')
      end.
Proof.
  intros r. subst r.
  destruct (getPort world 2222 w) as [p1 w1] eqn:G1.
  destruct (getPort world 2221 w1) as [p2 w2] eqn:G2.
  start_cases world G1 G2 dir ext glob preact;
    cbn -[Z_to_string String.append];
    intros H; inversion H; subst s; clear H;
    (split; [reflexivity|]); (split; [reflexivity|]);
    intros W' world' w'; unfold listening;
    cbn -[Z_to_string String.append];
    destruct (server_bind world' p1 w') as [[done|e'] w''];
    cbn -[Z_to_string String.append];
    solve [reflexivity | eexists; reflexivity].
Qed.

Lemma announcements_follow_the_bind_witness :
  let r := run Scenario.stubborn
             (@start Reference.lib None None (Some ["src/*.ts"]) false)
             Reference.idle in
  exists s,
    outcome r = Returns s
    /\ internalPort s = 8000
    /\ writes_on_console (trace r) = false
    /\ trace (run Scenario.stubborn (listening s) (snd r))
       = [ EvCall (ServerBind 2222) (Ok tt);
           EvOut (ConsoleLog "ESBuild for /srv/plugins/src/*.ts on port 2221");
           EvOut (ConsoleLog
                    "Development server started on http://127.0.0.1:2222/") ].
Proof.
  cbv zeta. eexists. split; [reflexivity|]. split; [reflexivity|].
  split; [|reflexivity].
  apply (@announcements_follow_the_bind Reference.lib _ Scenario.stubborn
           Reference.idle None None (Some ["src/*.ts"]) false _ eq_refl).
Defined.
